(** * YADA food converters: a shallow embedding and its checked properties

    The repository holds two Python scripts,
    [yada/add_composite_food.py] and [yada/convert_foods.py].  Both take
    values produced by [json.loads], build one text line per record by
    string formatting and append it to a text file.

    The development follows the scripts:
    - [Py]: the Python values the scripts handle, the exceptions the
      built-in operations raise on them, and the formatting primitives;
    - [FileSys]: the files the scripts open, as a finite map from paths;
    - [add_composite_food] and [convert_foods]: the functions of the two
      scripts, written in a state-and-exception monad;
    - the properties of the specification, one theorem each;
    - further properties of the two scripts: what they do on malformed
      input, what they leave untouched, how their lines read back.

    Strings are sequences of 8-bit characters.  Lowercasing is left to the
    runtime, as are [json.loads] and [repr].  The messages that the scripts
    print are left out: no property depends on them. *)

From Stdlib Require Import ZArith NArith List Bool Ascii String Lia.
From Stdlib Require Import DecimalString DecimalPos DecimalZ.
From stdpp Require Import base option list gmap strings.

Local Open Scope Z_scope.
Set Warnings "-register-all".


(* ===================================================================== *)
(** * Python values and built-in operations                               *)
(* ===================================================================== *)

Module Py.

(** A Python [float].  Only the value matters to the scripts, never the bit
    pattern: a finite float is [(-1)^neg * m * 2^e]. *)
Inductive pyfloat : Type :=
| FFinite (neg : bool) (m : N) (e : Z)
| FInf (neg : bool)
| FNaN.

(** What [json.loads] returns: [None], [bool], [int], [float], [str],
    [list], and [dict] with string keys in insertion order. *)
Inductive value : Type :=
| VNone
| VBool (b : bool)
| VInt (z : Z)
| VFloat (f : pyfloat)
| VStr (s : string)
| VList (l : list value)
| VDict (d : list (string * value)).

(** The exceptions that the operations used by the scripts can raise. *)
Inductive exn : Type :=
| AttributeError
| TypeError
| ValueError
| OverflowError
| JSONDecodeError
| FileNotFoundError
| OSError.

Inductive result (A : Type) : Type :=
| Ret (a : A)
| Raise (e : exn).
Arguments Ret {A} a.
Arguments Raise {A} e.

#[export] Instance result_ret : MRet result := @Ret.
#[export] Instance result_bind : MBind result := fun A B f r =>
  match r with
  | Ret a => f a
  | Raise e => Raise e
  end.

(** The parts of the Python runtime that the scripts call and that are not
    theirs: [json.loads] ([None] stands for [JSONDecodeError]),
    [float.__repr__], [str.__repr__] and [str.lower], which follows the
    Unicode tables. *)
Class PyLib : Type := {
  json_loads : string -> option value;
  float_repr : pyfloat -> string;
  str_repr : string -> string;
  str_lower : string -> string
}.

(** [bool(v)]: [None], [False], zero, and the empty string, list and dict
    are falsy. *)
Definition truthy (v : value) : bool :=
  match v with
  | VNone => false
  | VBool b => b
  | VInt z => negb (z =? 0)
  | VFloat (FFinite _ m _) => negb (m =? 0)%N
  | VFloat _ => true
  | VStr s => negb (String.eqb s "")
  | VList l => match l with [] => false | _ => true end
  | VDict d => match d with [] => false | _ => true end
  end.

(** [sep.join(parts)] on strings. *)
Fixpoint join (sep : string) (parts : list string) : string :=
  match parts with
  | [] => ""
  | [p] => p
  | p :: rest => p +:+ sep +:+ join sep rest
  end.

(** The line terminator, written [\n] in the scripts. *)
Definition newline : string := String (ascii_of_N 10) EmptyString.

(** [str(z)] for an [int]. *)
Definition int_str (z : Z) : string := NilZero.string_of_int (Z.to_int z).

(** [repr(v)] and [str(v)], which is what [f"{v}"] inserts. *)
Fixpoint repr `{PyLib} (v : value) : string :=
  match v with
  | VNone => "None"
  | VBool b => if b then "True" else "False"
  | VInt z => int_str z
  | VFloat f => float_repr f
  | VStr s => str_repr s
  | VList l => "[" +:+ join ", " (List.map repr l) +:+ "]"
  | VDict d =>
      "{" +:+ join ", " (List.map (fun '(k, x) => str_repr k +:+ ": " +:+ repr x) d) +:+ "}"
  end.

Definition str `{PyLib} (v : value) : string :=
  match v with
  | VStr s => s
  | _ => repr v
  end.

(** [d.get(key, default)]; only a [dict] has the method. *)
Fixpoint assoc (key : string) (d : list (string * value)) : option value :=
  match d with
  | [] => None
  | (k, x) :: rest => if String.eqb k key then Some x else assoc key rest
  end.

Definition get (v : value) (key : string) (dflt : value) : result value :=
  match v with
  | VDict d => Ret (default dflt (assoc key d))
  | _ => Raise AttributeError
  end.

(** [for x in v]: a list yields its elements, a string its characters (each
    a string of length one), a dict its keys; nothing else is iterable. *)
Fixpoint chars (s : string) : list value :=
  match s with
  | EmptyString => []
  | String c rest => VStr (String c EmptyString) :: chars rest
  end.

Definition iter (v : value) : result (list value) :=
  match v with
  | VList l => Ret l
  | VStr s => Ret (chars s)
  | VDict d => Ret (List.map (fun kv => VStr (fst kv)) d)
  | _ => Raise TypeError
  end.

(** [sep.join(v)]: [v] must be iterable and yield strings only. *)
Fixpoint strings_of (items : list value) : result (list string) :=
  match items with
  | [] => Ret []
  | VStr s :: rest => parts ← strings_of rest; Ret (s :: parts)
  | _ :: _ => Raise TypeError
  end.

Definition str_join (sep : string) (v : value) : result string :=
  items ← iter v;
  parts ← strings_of items;
  Ret (join sep parts).

(** [s.lower()]; only a [str] has the method. *)
Definition lower `{PyLib} (v : value) : result string :=
  match v with
  | VStr s => Ret (str_lower s)
  | _ => Raise AttributeError
  end.

(** ** The format specification [.2f] *)

(** [float(z)] for an [int]: exact up to 53 bits, rounded to nearest, ties
    to even, above; [OverflowError] from [2^1024] on. *)
Definition float_of_int (z : Z) : result pyfloat :=
  let a := Z.abs z in
  let bits := Z.log2 a + 1 in
  if bits <=? 53 then Ret (FFinite (z <? 0) (Z.to_N a) 0)
  else
    let sh := bits - 53 in
    let q := Z.shiftr a sh in
    let r := a - Z.shiftl q sh in
    let half := Z.shiftl 1 (sh - 1) in
    let q' := if (half <? r) || ((r =? half) && Z.odd q) then q + 1 else q in
    if Z.shiftl 1 1024 <=? Z.shiftl q' sh then Raise OverflowError
    else Ret (FFinite (z <? 0) (Z.to_N q') sh).

(** [m * 2^e * 100] rounded to the nearest integer, ties to even. *)
Definition hundredths (m : N) (e : Z) : Z :=
  let n := Z.of_N m * 100 in
  if 0 <=? e then Z.shiftl n e
  else
    let d := Z.shiftl 1 (- e) in
    let q := n / d in
    let r := n mod d in
    if (d <? 2 * r) || ((2 * r =? d) && Z.odd q) then q + 1 else q.

Definition digit (n : Z) : ascii := ascii_of_N (48 + Z.to_N n).

Definition fixed2 (f : pyfloat) : string :=
  match f with
  | FNaN => "nan"
  | FInf neg => if neg then "-inf" else "inf"
  | FFinite neg m e =>
      let h := hundredths m e in
      (if neg then "-" else "") +:+ int_str (h / 100) +:+ "."
        +:+ String (digit (h / 10 mod 10)) (String (digit (h mod 10)) EmptyString)
  end.

(** [format(v, ".2f")], what [f"{v:.2f}"] inserts: defined on [float],
    [int] and [bool]; [str] rejects the format code, the other types
    reject any format specification. *)
Definition format_2f (v : value) : result string :=
  match v with
  | VFloat f => Ret (fixed2 f)
  | VInt z => f ← float_of_int z; Ret (fixed2 f)
  | VBool b => f ← float_of_int (if b then 1 else 0); Ret (fixed2 f)
  | VStr _ => Raise ValueError
  | VNone | VList _ | VDict _ => Raise TypeError
  end.

End Py.

(* ===================================================================== *)
(** * Files                                                               *)
(* ===================================================================== *)

Module FileSys.
Import Py.

(** What a path names.  [Reg] is a regular file that can be read and
    appended to; [Denied] is anything [open] fails on (a directory, a file
    without permission, a path below a missing directory).  A path absent
    from the map names nothing yet: opening it for reading fails, opening
    it for appending creates it. *)
Inductive node : Type :=
| Reg (content : string)
| Denied.

Abbreviation FS := (gmap string node).

(** The text stored under a path, empty when there is none. *)
Definition content (fs : FS) (path : string) : string :=
  match fs !! path with
  | Some (Reg c) => c
  | _ => ""
  end.

Definition writable (fs : FS) (path : string) : bool :=
  match fs !! path with
  | Some Denied => false
  | _ => true
  end.

(** Computations over the files that may raise. *)
Definition M (A : Type) : Type := FS -> result A * FS.

#[export] Instance M_ret : MRet M := fun A a fs => (Ret a, fs).
#[export] Instance M_bind : MBind M := fun A B f m fs =>
  match m fs with
  | (Ret a, fs') => f a fs'
  | (Raise e, fs') => (Raise e, fs')
  end.

Definition lift {A} (r : result A) : M A := fun fs => (r, fs).

(** [try: body except Exception: handler] *)
Definition try_except {A} (body : M A) (handler : exn -> M A) : M A := fun fs =>
  match body fs with
  | (Ret a, fs') => (Ret a, fs')
  | (Raise e, fs') => handler e fs'
  end.

(** [open(path, "r").read()] *)
Definition read (path : string) : M string := fun fs =>
  match fs !! path with
  | Some (Reg c) => (Ret c, fs)
  | Some Denied => (Raise OSError, fs)
  | None => (Raise FileNotFoundError, fs)
  end.

(** [open(path, "a")] *)
Definition open_append (path : string) : M unit := fun fs =>
  match fs !! path with
  | Some (Reg _) => (Ret tt, fs)
  | Some Denied => (Raise OSError, fs)
  | None => (Ret tt, <[path := Reg ""]> fs)
  end.

(** [file.write(text)] on a file opened for appending.  The text reaches
    the file when the [with] block is left, on every exit path, and nothing
    reads the file in between, so it is added at once.  A device that
    takes the [open] and then refuses the [write] is not among the files
    described here. *)
Definition write (path : string) (text : string) : M unit := fun fs =>
  match fs !! path with
  | Some (Reg c) => (Ret tt, <[path := Reg (c +:+ text)]> fs)
  | _ => (Raise OSError, fs)
  end.

End FileSys.

(* ===================================================================== *)
(** * yada/add_composite_food.py                                          *)
(* ===================================================================== *)

Module add_composite_food.
Import Py FileSys.

Section Script.
Context `{PyLib}.

(** The loop of lines 49-54: [component_parts] is the list built so far. *)
Fixpoint format_components (components : list value) (component_parts : list string)
  : result (list string) :=
  match components with
  | [] => Ret component_parts
  | component :: rest =>
      name ← get component "name" (VStr "");
      servings ← get component "servings" (VInt 0);
      format_components rest
        (if truthy name && truthy servings
         then component_parts ++ [str name +:+ ":" +:+ str servings]
         else component_parts)
  end.

(** [add_single_composite_food(food_data, file_path)], lines 25-69. *)
Definition add_single_composite_food (food_data : value) (file_path : string) : M bool :=
  match (match food_data with
         | VStr s => json_loads s
         | _ => Some food_data
         end) with
  | None => mret false
  | Some food_data =>
      food_id ← lift (get food_data "id" (VStr ""));
      food_name ← lift (get food_data "name" (VStr ""));
      components ← lift (get food_data "components" (VList []));
      if negb (truthy food_name) || negb (truthy components) then mret false
      else
        lowered ← lift (lower food_name);
        let search_terms_str := join "," [lowered; str food_name] in
        items ← lift (iter components);
        component_parts ← lift (format_components items []);
        let components_str := join ";" component_parts in
        let entry :=
          str food_name +:+ "|" +:+ search_terms_str +:+ "|" +:+ components_str +:+ newline in
        try_except
          (open_append file_path;; write file_path entry;; mret true)
          (fun _ : exn => mret false)
  end.

(** The loop of lines 15-18. *)
Fixpoint add_each (items : list value) (file_path : string) (success_count : nat) : M nat :=
  match items with
  | [] => mret success_count
  | food_item :: rest =>
      ok ← add_single_composite_food food_item file_path;
      add_each rest file_path (if (ok : bool) then S success_count else success_count)
  end.

(** [add_composite_food_from_json(json_data, file_path)], lines 3-24. *)
Definition add_composite_food_from_json (json_data : value) (file_path : string) : M bool :=
  match json_data with
  | VList items =>
      success_count ← add_each items file_path 0%nat;
      mret (Nat.eqb success_count (length items))
  | _ => add_single_composite_food json_data file_path
  end.

End Script.
End add_composite_food.

(* ===================================================================== *)
(** * yada/convert_foods.py                                               *)
(* ===================================================================== *)

Module convert_foods.
Import Py FileSys.

Section Script.
Context `{PyLib}.

(** [process_food_item(food, output_file)], lines 40-52.  [output_file] is
    the file object that the caller opened for appending. *)
Definition process_food_item (food : value) (output_file : string) : M unit :=
  fallback ← lift (get food "id" (VStr "Unknown"));
  identifier ← lift (get food "name" fallback);
  keyword_list ← lift (get food "keywords" (VList []));
  keywords ← lift (str_join "," keyword_list);
  calories ← lift (get food "calories_per_serving" (VInt 0));
  formatted ← lift (format_2f calories);
  write output_file
    (str identifier +:+ "|" +:+ keywords +:+ "|" +:+ formatted +:+ newline).

(** The loop of lines 25-26. *)
Fixpoint process_each (food_data : list value) (output_file : string) : M unit :=
  match food_data with
  | [] => mret tt
  | food :: rest =>
      process_food_item food output_file;;
      process_each rest output_file
  end.

(** [json.load(f)] on the text read from the file. *)
Definition load (text : string) : result value :=
  match json_loads text with
  | Some v => Ret v
  | None => Raise JSONDecodeError
  end.

(** [convert_json_to_basic_foods(json_file, output_file)], lines 3-38.  The
    three [except] clauses differ in the message they print only. *)
Definition convert_json_to_basic_foods (json_file output_file : string) : M unit :=
  try_except
    (text ← read json_file;
     food_data ← lift (load text);
     open_append output_file;;
     match food_data with
     | VList foods => process_each foods output_file
     | _ => process_food_item food_data output_file
     end)
    (fun e : exn =>
       match e with
       | FileNotFoundError => mret tt
       | JSONDecodeError => mret tt
       | _ => mret tt
       end).

End Script.
End convert_foods.

(* ===================================================================== *)
(** * Vocabulary of the properties                                        *)
(* ===================================================================== *)

Import Py FileSys add_composite_food convert_foods.

(** A field of a record, with the default the scripts pass to [get]. *)
Definition field (d : list (string * value)) (key : string) (dflt : value) : value :=
  default dflt (assoc key d).

Definition absent_or_empty (o : option value) : bool :=
  match o with
  | None => true
  | Some v => negb (truthy v)
  end.

Definition is_dict (v : value) : bool :=
  match v with
  | VDict _ => true
  | _ => false
  end.

(** ** Composite records *)

(** A component is kept when its name and its servings are both truthy. *)
Definition included (c : value) : bool :=
  match c with
  | VDict d => truthy (field d "name" (VStr "")) && truthy (field d "servings" (VInt 0))
  | _ => false
  end.

Definition component_text `{PyLib} (c : value) : string :=
  match c with
  | VDict d => str (field d "name" (VStr "")) +:+ ":" +:+ str (field d "servings" (VInt 0))
  | _ => ""
  end.

(** The line [name|lowercase(name),name|c1:s1;...;ck:sk] and its newline. *)
Definition composite_line `{PyLib} (name : string) (components : list value) : string :=
  name +:+ "|" +:+ str_lower name +:+ "," +:+ name +:+ "|"
    +:+ join ";" (List.map component_text (List.filter included components)) +:+ newline.

(** A record typed as the data model has it: a dict whose [name], when
    present, is a string and whose [components], when present, is a list
    of dicts. *)
Definition composite_record (v : value) : bool :=
  match v with
  | VDict d =>
      match assoc "name" d with
      | None | Some (VStr _) => true
      | Some _ => false
      end
      &&
      match assoc "components" d with
      | None => true
      | Some (VList cs) => forallb is_dict cs
      | Some _ => false
      end
  | _ => false
  end.

(** The line of a typed record that has a name and components. *)
Definition entry_of `{PyLib} (x : value) : string :=
  match x with
  | VDict d =>
      match assoc "name" d, assoc "components" d with
      | Some (VStr n), Some (VList cs) => composite_line n cs
      | _, _ => ""
      end
  | _ => ""
  end.

(** [add_single_composite_food] returns [True] on [x]. *)
Definition succeeds `{PyLib} (x : value) (file_path : string) (fs : FS) : bool :=
  match fst (add_single_composite_food x file_path fs) with
  | Ret true => true
  | _ => false
  end.

(** A record that has both a name and components. *)
Definition accepted (x : value) : bool :=
  match x with
  | VDict d =>
      truthy (field d "name" (VStr "")) && truthy (field d "components" (VList []))
  | _ => false
  end.

Definition is_list (v : value) : bool :=
  match v with
  | VList _ => true
  | _ => false
  end.

Definition is_str (v : value) : bool :=
  match v with
  | VStr _ => true
  | _ => false
  end.

(** Lines written one after the other. *)
Definition text_of (lines : list string) : string := foldr String.append "" lines.

(** [fs'] is [fs] with [text] added at the end of [path] and nothing else
    changed (the file may have been created, empty, on the way). *)
Definition extends (fs : FS) (path : string) (text : string) (fs' : FS) : Prop :=
  content fs' path = content fs path +:+ text
  /\ writable fs' path = writable fs path
  /\ forall q, q <> path -> fs' !! q = fs !! q.

(** What [add_single_composite_food] does before it opens the file: it
    raises, or rejects the record ([None]), or has the line to write. *)
Definition single_plan `{PyLib} (food_data : value) : result (option string) :=
  match (match food_data with
         | VStr s => json_loads s
         | _ => Some food_data
         end) with
  | None => Ret None
  | Some food_data =>
      food_id ← get food_data "id" (VStr "");
      food_name ← get food_data "name" (VStr "");
      components ← get food_data "components" (VList []);
      if negb (truthy food_name) || negb (truthy components) then Ret None
      else
        lowered ← lower food_name;
        items ← iter components;
        component_parts ← format_components items [];
        Ret (Some (str food_name +:+ "|" +:+ join "," [lowered; str food_name] +:+ "|"
                     +:+ join ";" component_parts +:+ newline))
  end.

(** The count and the text that the loop over a list ends with, given
    whether the file can be opened. *)
Fixpoint each_plan `{PyLib} (w : bool) (items : list value) (n : nat) : result nat * string :=
  match items with
  | [] => (Ret n, "")
  | x :: rest =>
      match single_plan x with
      | Raise e => (Raise e, "")
      | Ret None => each_plan w rest n
      | Ret (Some entry) =>
          if w then
            let '(r, text) := each_plan w rest (S n) in (r, entry +:+ text)
          else each_plan w rest n
      end
  end.

(** ** Basic-food records *)

(** The line [process_food_item] builds before it writes it. *)
Definition basic_line `{PyLib} (food : value) : result string :=
  fallback ← get food "id" (VStr "Unknown");
  identifier ← get food "name" fallback;
  keyword_list ← get food "keywords" (VList []);
  keywords ← str_join "," keyword_list;
  calories ← get food "calories_per_serving" (VInt 0);
  formatted ← format_2f calories;
  Ret (str identifier +:+ "|" +:+ keywords +:+ "|" +:+ formatted +:+ newline).

(** The text the loop over the records has written when it ends or stops. *)
Fixpoint lines_plan `{PyLib} (foods : list value) : result unit * string :=
  match foods with
  | [] => (Ret tt, "")
  | food :: rest =>
      match basic_line food with
      | Raise e => (Raise e, "")
      | Ret line => let '(r, text) := lines_plan rest in (r, line +:+ text)
      end
  end.

(** The records of a document: the elements of an array, or the document
    itself. *)
Definition records_of (food_data : value) : list value :=
  match food_data with
  | VList foods => foods
  | _ => [food_data]
  end.

(** The document that [convert_json_to_basic_foods] reads, when the file is
    there and holds JSON. *)
Definition input_of `{PyLib} (fs : FS) (json_file : string) : option value :=
  match fs !! json_file with
  | Some (Reg text) => json_loads text
  | _ => None
  end.

Definition is_digit (c : ascii) : bool :=
  let n := N_of_ascii c in ((48 <=? n) && (n <=? 57))%N.

Fixpoint all_digits (s : string) : bool :=
  match s with
  | EmptyString => true
  | String c rest => is_digit c && all_digits rest
  end.

(** [digits "." digit digit], with at least one digit in front when [seen]
    is false. *)
Fixpoint fraction2 (s : string) (seen : bool) : bool :=
  match s with
  | EmptyString => false
  | String c rest =>
      if Ascii.eqb c "."%char then
        seen && match rest with
                | String a (String b EmptyString) => is_digit a && is_digit b
                | _ => false
                end
      else is_digit c && fraction2 rest true
  end.

(** A decimal numeral with exactly two digits after the point. *)
Definition two_decimals (s : string) : bool :=
  match s with
  | String c rest => if Ascii.eqb c "-"%char then fraction2 rest false else fraction2 s false
  | EmptyString => false
  end.

(** A float that is a number: not an infinity, not a NaN. *)
Definition finite (v : value) : bool :=
  match v with
  | VFloat (FInf _) | VFloat FNaN => false
  | _ => true
  end.

(** [sep in s] for a character. *)
Fixpoint contains (sep : ascii) (s : string) : bool :=
  match s with
  | EmptyString => false
  | String c rest => Ascii.eqb c sep || contains sep rest
  end.

(** [s.split(sep)] for a one-character separator: the empty string splits
    into one empty field. *)
Fixpoint split (sep : ascii) (s : string) : list string :=
  match s with
  | EmptyString => [EmptyString]
  | String c rest =>
      if Ascii.eqb c sep then EmptyString :: split sep rest
      else
        match split sep rest with
        | field1 :: fields => String c field1 :: fields
        | [] => [String c EmptyString]
        end
  end.

(* ===================================================================== *)
(** * Example data                                                        *)
(* ===================================================================== *)

Module Examples.

Definition component (name : string) (servings : value) : value :=
  VDict [("name", VStr name); ("servings", servings)].

Definition composite (id name : string) (components : list value) : value :=
  VDict [("id", VStr id); ("name", VStr name); ("components", VList components)].

Definition half : value := VFloat (FFinite false 1 (-1)).

(** The record of the specification's scenario. *)
Definition ghee_roti : value :=
  VDict [("name", VStr "Ghee Roti");
         ("components", VList [component "Roti" (VInt 1); component "Ghee" (VInt 1)])].

(** [sample_data], lines 72-164 of add_composite_food.py. *)
Definition sample_data : value :=
  VList [
    composite "composite001" "Peanut Butter Sandwich"
      [component "White Bread Slice" (VInt 2); component "Peanut Butter" (VInt 1)];
    composite "composite002" "PB&J Sandwich"
      [component "White Bread Slice" (VInt 2); component "Peanut Butter" (VInt 1);
       component "Jam" (VInt 1)];
    composite "composite003" "Paneer Wrap"
      [component "Roti" (VInt 1); component "Paneer" (VInt 1);
       component "Onion" half; component "Tomato" half];
    composite "composite004" "Dal Chawal"
      [component "Dal" (VInt 1); component "Cooked Rice" (VInt 1)];
    composite "composite005" "Naan Paneer"
      [component "Naan" (VInt 1); component "Paneer" (VInt 1); component "Onion" half];
    composite "composite006" "Veg Sandwich"
      [component "Whole Wheat Bread Slice" (VInt 2); component "Butter" half;
       component "Tomato" half; component "Cucumber" half; component "Onion" half];
    composite "composite007" "Egg Salad"
      [component "Boiled Egg" (VInt 1); component "Cucumber" half;
       component "Onion" half; component "Mayonnaise" (VInt 1)];
    composite "composite008" "Chana Roti"
      [component "Roti" (VInt 1); component "Cooked Chickpeas" (VInt 1)];
    composite "composite009" "Ghee Roti"
      [component "Roti" (VInt 1); component "Ghee" (VInt 1)];
    composite "composite010" "Paneer Rice Bowl"
      [component "Cooked Rice" (VInt 1); component "Paneer" (VInt 1);
       component "Tomato" half; component "Onion" half]
  ].

(** A record that [add_single_composite_food] rejects, and one whose
    components are all filtered out. *)
Definition nameless : value :=
  VDict [("id", VStr "composite011"); ("components", VList [component "Roti" (VInt 1)])].

Definition all_dropped : value :=
  VDict [("name", VStr "Plain Water");
         ("components", VList [component "Water" (VInt 0); component "" (VInt 2)])].

(** Basic-food records: the one of the docstring, one without keywords,
    one whose calories are a string, one whose calories overflowed to
    infinity when the JSON number was read. *)
Definition white_bread : value :=
  VDict [("id", VStr "food001"); ("name", VStr "White Bread Slice");
         ("keywords", VList [VStr "bread"; VStr "sandwich bread"; VStr "loaf"]);
         ("calories_per_serving", VInt 70)].

Definition plain_rice : value :=
  VDict [("name", VStr "Rice"); ("keywords", VList []); ("calories_per_serving", VInt 130)].

Definition bad_calories : value :=
  VDict [("name", VStr "Mystery"); ("calories_per_serving", VStr "many")].

Definition huge_calories : value :=
  VDict [("name", VStr "Feast"); ("calories_per_serving", VFloat (FInf false))].

(** Two documents for the basic-food converter. *)
Definition good_batch : value := VList [white_bread; plain_rice].

Definition mixed_batch : value := VList [white_bread; bad_calories; plain_rice].

(** [str.lower] on ASCII text, where it turns the letters [A] to [Z] into
    [a] to [z] and keeps every other character. *)
Definition ascii_lower (c : ascii) : ascii :=
  let n := N_of_ascii c in
  if ((65 <=? n) && (n <=? 90))%N then ascii_of_N (n + 32) else c.

Fixpoint lower_string (s : string) : string :=
  match s with
  | EmptyString => EmptyString
  | String c rest => String (ascii_lower c) (lower_string rest)
  end.

(** The runtime on the values of the examples.  [repr] of a string without
    quotes, backslashes or control characters puts it between single
    quotes; [0.5] prints as such, and no other fraction occurs; every
    string is ASCII text. *)
Definition float_text (f : pyfloat) : string :=
  match f with
  | FFinite false 1%N (-1) => "0.5"
  | FFinite true 1%N (-1) => "-0.5"
  | FFinite false 0%N _ => "0.0"
  | FFinite true 0%N _ => "-0.0"
  | FFinite _ _ _ => ""
  | FInf false => "inf"
  | FInf true => "-inf"
  | FNaN => "nan"
  end.

Definition dq : string := String (ascii_of_N 34) EmptyString.

(** The JSON text of a document built from strings without characters to
    escape, as [json.dumps] writes it. *)
Fixpoint dumps (v : value) : string :=
  match v with
  | VNone => "null"
  | VBool b => if b then "true" else "false"
  | VInt z => int_str z
  | VFloat f => float_text f
  | VStr s => dq +:+ s +:+ dq
  | VList l => "[" +:+ join ", " (List.map dumps l) +:+ "]"
  | VDict d =>
      "{" +:+ join ", " (List.map (fun '(k, x) => dq +:+ k +:+ dq +:+ ": " +:+ dumps x) d) +:+ "}"
  end.

(** The JSON documents of the examples; [json.loads] is taken on their
    texts and fails elsewhere. *)
Definition documents : list value :=
  [ghee_roti; VList [ghee_roti]; good_batch; mixed_batch].

Definition loads (text : string) : option value :=
  List.find (fun v => String.eqb (dumps v) text) documents.

#[export] Instance runtime : PyLib := {|
  json_loads := loads;
  float_repr := float_text;
  str_repr := fun s => "'" +:+ s +:+ "'";
  str_lower := lower_string
|}.

(** A file system holding the input of the basic-food converter. *)
Definition with_input (doc : value) : FS := {[ "food_data.json" := Reg (dumps doc) ]}.

End Examples.

(* ===================================================================== *)
(** * Further vocabulary                                                  *)
(* ===================================================================== *)

(** The value [add_single_composite_food] works on once lines 28-33 have
    parsed a string; [None] when the string is not JSON. *)
Definition effective `{PyLib} (food_data : value) : option value :=
  match food_data with
  | VStr s => json_loads s
  | _ => Some food_data
  end.

(** ** Reading a formatted number *)

(** [h] is the integer nearest to [num / den], the even one of the two
    when [num / den] lies halfway. *)
Definition nearest_even (num den h : Z) : Prop :=
  2 * Z.abs (num - h * den) <= den
  /\ (2 * Z.abs (num - h * den) = den -> Z.even h = true).

(** The magnitude [m * 2^e] of a float, as a fraction. *)
Definition fraction_of (m : N) (e : Z) : Z * Z :=
  if 0 <=? e then (Z.of_N m * 2 ^ e, 1) else (Z.of_N m, 2 ^ (- e)).

(** The number of bits by which an integer exceeds the 53 of a float. *)
Definition excess_bits (a : Z) : Z := Z.max 0 (Z.log2 a - 52).

Definition digit_value (c : ascii) : Z := Z.of_N (N_of_ascii c) - 48.

Definition read_int (s : string) : option Z :=
  option_map Z.of_int (NilZero.int_of_string s).

(** The sign and the number of hundredths that a numeral [-ddd.dd]
    denotes. *)
Definition read_two_decimals (s : string) : option (bool * Z) :=
  let '(neg, body) :=
    match s with
    | String c rest => if Ascii.eqb c "-"%char then (true, rest) else (false, s)
    | EmptyString => (false, s)
    end in
  match split "." body with
  | [whole; String a (String b EmptyString)] =>
      if is_digit a && is_digit b then
        match read_int whole with
        | Some q => Some (neg, q * 100 + digit_value a * 10 + digit_value b)
        | None => None
        end
      else None
  | _ => None
  end.

(** [cal] is a numeral with two decimals that denotes [h] hundredths, with
    a minus sign exactly when [neg]. *)
Definition reads_as (cal : string) (neg : bool) (h : Z) : Prop :=
  two_decimals cal = true /\ read_two_decimals cal = Some (neg, h).

(** What the third field must be for each kind of calories: a finite float
    is rounded to the nearest hundredth, ties to even, on its exact value;
    an [int] is first rounded to 53 significant bits, ties to even, which
    changes nothing below [2^53]; a [bool] counts as 1 or 0; a float that
    is no number is spelled out. *)
Definition formats_value (calories : value) (cal : string) : Prop :=
  match calories with
  | VFloat (FFinite neg m e) =>
      exists h,
        nearest_even (100 * fst (fraction_of m e)) (snd (fraction_of m e)) h
        /\ reads_as cal neg h
  | VFloat (FInf neg) => cal = if neg then "-inf" else "inf"
  | VFloat FNaN => cal = "nan"
  | VInt z =>
      exists k,
        nearest_even (Z.abs z) (2 ^ excess_bits (Z.abs z)) k
        /\ reads_as cal (z <? 0) (100 * (k * 2 ^ excess_bits (Z.abs z)))
  | VBool b => cal = if b then "1.00" else "0.00"
  | VNone | VStr _ | VList _ | VDict _ => False
  end.

(** The types that the format code [f] accepts. *)
Definition numeric (v : value) : bool :=
  match v with
  | VInt _ | VBool _ | VFloat _ => true
  | _ => false
  end.

(** The one-character strings of a string, as iterating over it yields
    them. *)
Definition singles (s : string) : list string :=
  List.map (fun c => String c EmptyString) (list_ascii_of_string s).

(** The records of [sample_data]. *)
Definition sample_records : list value := records_of Examples.sample_data.

(** The example runtime, which also reads the empty array. *)
Definition runtime_with_empty_array : PyLib := {|
  json_loads := fun text =>
    if String.eqb text "[]" then Some (VList []) else Examples.loads text;
  float_repr := Examples.float_text;
  str_repr := fun s => "'" +:+ s +:+ "'";
  str_lower := Examples.lower_string
|}.

(** Line 168 of add_composite_food.py: the call made when the module is
    loaded, with the default [file_path] of line 3. *)
Definition module_run `{PyLib} : M bool :=
  add_composite_food_from_json Examples.sample_data "composite_foods.txt".


(* ===================================================================== *)
(** * Facts about the file operations and the record plans                *)
(* ===================================================================== *)

Lemma append_cons (x : ascii) (a b : string) : String x a +:+ b = String x (a +:+ b).
Proof. reflexivity. Qed.

Lemma append_empty_l (a : string) : "" +:+ a = a.
Proof. reflexivity. Qed.

Lemma append_assoc (a b c : string) : (a +:+ b) +:+ c = a +:+ b +:+ c.
Proof.
  induction a as [|x a IH]; [done|]. rewrite !append_cons. by rewrite IH.
Qed.

Lemma append_empty_r (a : string) : a +:+ "" = a.
Proof. induction a as [|x a IH]; [done|]. rewrite append_cons. by rewrite IH. Qed.

Lemma length_append (a b : string) :
  String.length (a +:+ b) = (String.length a + String.length b)%nat.
Proof.
  induction a as [|x a IH]; [done|]. rewrite append_cons. simpl. by rewrite IH.
Qed.

Lemma append_same_l (a b : string) : a +:+ b = a -> b = "".
Proof.
  intros E. apply (f_equal String.length) in E. rewrite length_append in E.
  destruct b; [done|simpl in E; lia].
Qed.

Section Facts.
Context `{PyLib}.

Lemma bind_lift {A B} (r : result A) (f : A -> M B) (fs : FS) :
  (lift r ≫= f) fs = match r with
                     | Ret a => f a fs
                     | Raise e => (Raise e, fs)
                     end.
Proof. by destruct r. Qed.

(** Lines 62-69: the entry is appended when the file can be opened. *)
Lemma append_entry (path entry : string) (fs : FS) :
  try_except (open_append path;; write path entry;; mret true)
             (fun _ : exn => mret false) fs
  = if writable fs path
    then (Ret true, <[path := Reg (content fs path +:+ entry)]> fs)
    else (Ret false, fs).
Proof.
  unfold try_except, open_append, write, writable, content, mbind, M_bind, mret, M_ret.
  destruct (fs !! path) as [[c|]|] eqn:E; simpl.
  - by rewrite E.
  - done.
  - by rewrite lookup_insert_eq, insert_insert_eq.
Qed.

(** [add_single_composite_food] is its plan followed by the append. *)
Lemma add_single_plan (x : value) (path : string) (fs : FS) :
  add_single_composite_food x path fs
  = match single_plan x with
    | Raise e => (Raise e, fs)
    | Ret None => (Ret false, fs)
    | Ret (Some entry) =>
        if writable fs path
        then (Ret true, <[path := Reg (content fs path +:+ entry)]> fs)
        else (Ret false, fs)
    end.
Proof.
  unfold add_single_composite_food, single_plan.
  destruct (match x with VStr s => json_loads s | _ => Some x end) as [fd|]; [|done].
  rewrite bind_lift. destruct (get fd "id" (VStr "")) as [food_id|e]; simpl; [|done].
  rewrite bind_lift. destruct (get fd "name" (VStr "")) as [food_name|e]; simpl; [|done].
  rewrite bind_lift. destruct (get fd "components" (VList [])) as [components|e]; simpl; [|done].
  destruct (negb (truthy food_name) || negb (truthy components)); [done|].
  rewrite bind_lift. destruct (lower food_name) as [lowered|e]; simpl; [|done].
  rewrite bind_lift. destruct (iter components) as [items|e]; simpl; [|done].
  rewrite bind_lift. destruct (format_components items []) as [parts|e]; simpl; [|done].
  apply append_entry.
Qed.

(** The loop over typed components keeps, in order, the included ones. *)
Lemma format_components_spec (cs : list value) (acc : list string) :
  forallb is_dict cs = true ->
  format_components cs acc
  = Ret (acc ++ List.map component_text (List.filter included cs)).
Proof.
  revert acc. induction cs as [|c cs IH]; intros acc Hd; simpl.
  - by rewrite app_nil_r.
  - apply andb_prop in Hd as [Hc Hcs]. destruct c; try discriminate Hc. simpl.
    rewrite (IH _ Hcs). unfold field.
    destruct (truthy (default (VStr "") (assoc "name" d))
              && truthy (default (VInt 0) (assoc "servings" d))); simpl; [|done].
    by rewrite <- app_assoc.
Qed.

(** The plan of a record with a name and typed components. *)
Lemma single_plan_accepts (d : list (string * value)) (n : string) (cs : list value) :
  assoc "name" d = Some (VStr n) -> n <> "" ->
  assoc "components" d = Some (VList cs) -> cs <> [] ->
  forallb is_dict cs = true ->
  single_plan (VDict d) = Ret (Some (composite_line n cs)).
Proof.
  intros Hn Hne Hc Hcne Hd. unfold single_plan; simpl. rewrite Hn, Hc; simpl.
  apply String.eqb_neq in Hne. rewrite Hne. simpl.
  destruct cs as [|c cs]; [done|]. simpl negb. cbv iota.
  change (iter (VList (c :: cs)) ≫= _) with
    (format_components (c :: cs) [] ≫= fun parts =>
       Ret (Some (n +:+ "|" +:+ join "," [str_lower n; n] +:+ "|"
                    +:+ join ";" parts +:+ newline))).
  rewrite format_components_spec by done. simpl app.
  unfold composite_line. simpl. by rewrite !append_assoc.
Qed.

(** The plan of a record that lacks its name or its components. *)
Lemma single_plan_rejects (d : list (string * value)) :
  absent_or_empty (assoc "name" d) || absent_or_empty (assoc "components" d) = true ->
  single_plan (VDict d) = Ret None.
Proof.
  intros Hm. unfold single_plan; simpl.
  destruct (assoc "name" d) as [nm|], (assoc "components" d) as [cm|]; simpl in *;
    try done.
  - by rewrite Hm.
  - by rewrite orb_true_r.
Qed.

(** A typed record never raises: it is rejected or it has its line. *)
Lemma single_plan_typed (x : value) :
  composite_record x = true ->
  single_plan x = Ret (if accepted x then Some (entry_of x) else None).
Proof.
  destruct x as [| | | | |l|d]; try discriminate. intros Ht. simpl in Ht.
  apply andb_prop in Ht as [Hn Hc].
  destruct (accepted (VDict d)) eqn:Ha; simpl in Ha; unfold field in Ha.
  - apply andb_prop in Ha as [Ha1 Ha2]. unfold entry_of.
    destruct (assoc "name" d) as [[| | | |n| |]|] eqn:En; try discriminate.
    destruct (assoc "components" d) as [[| | | | |cs|]|] eqn:Ec; try discriminate.
    apply single_plan_accepts; try done.
    + intros ->. discriminate.
    + intros ->. discriminate.
  - apply single_plan_rejects. unfold absent_or_empty.
    destruct (assoc "name" d), (assoc "components" d); simpl in *;
      try done; try (by rewrite orb_true_r).
    apply andb_false_iff in Ha as [->| ->]; [done|by rewrite orb_true_r].
Qed.

Lemma extends_refl (fs : FS) (path : string) : extends fs path "" fs.
Proof. unfold extends. by rewrite append_empty_r. Qed.

Lemma extends_trans (fs fs1 fs2 : FS) (path t1 t2 : string) :
  extends fs path t1 fs1 -> extends fs1 path t2 fs2 ->
  extends fs path (t1 +:+ t2) fs2.
Proof.
  intros (C1 & W1 & O1) (C2 & W2 & O2). repeat split.
  - by rewrite C2, C1, append_assoc.
  - congruence.
  - intros q Hq. by rewrite O2, O1.
Qed.

Lemma extends_insert (fs : FS) (path entry : string) :
  writable fs path = true ->
  extends fs path entry (<[path := Reg (content fs path +:+ entry)]> fs).
Proof.
  intros W. unfold extends, content, writable in *. rewrite lookup_insert_eq.
  repeat split; [done|]. intros q Hq. by rewrite lookup_insert_ne.
Qed.

(** The loop of [add_composite_food_from_json] follows [each_plan]. *)
Lemma add_each_plan (path : string) (items : list value) (n : nat) (fs : FS) :
  exists fs',
    add_each items path n fs = (fst (each_plan (writable fs path) items n), fs')
    /\ extends fs path (snd (each_plan (writable fs path) items n)) fs'.
Proof.
  revert n fs. induction items as [|x rest IH]; intros n fs.
  - exists fs. split; [done|apply extends_refl].
  - cbn [add_each each_plan]. unfold mbind, M_bind. rewrite add_single_plan.
    destruct (single_plan x) as [[entry|]|e].
    + destruct (writable fs path) eqn:W.
      * pose proof (extends_insert fs path entry W) as X.
        destruct (IH (S n) (<[path := Reg (content fs path +:+ entry)]> fs))
          as (fs' & E & X').
        destruct X as (XC & XW & XO). rewrite XW, W in E, X'.
        exists fs'. destruct (each_plan true rest (S n)) as [r text]. simpl in *.
        split; [done|]. by apply (extends_trans _ _ _ _ _ _ (conj XC (conj XW XO))).
      * destruct (IH n fs) as (fs' & E & X'). rewrite W in E, X'. by exists fs'.
    + apply IH.
    + exists fs. split; [done|apply extends_refl].
Qed.

(** On typed records the loop counts and writes the accepted ones. *)
Lemma each_plan_typed (w : bool) (items : list value) (n : nat) :
  forallb composite_record items = true ->
  each_plan w items n
  = (Ret (n + length (List.filter (fun x => w && accepted x) items))%nat,
     text_of (List.map entry_of (List.filter (fun x => w && accepted x) items))).
Proof.
  revert n. induction items as [|x rest IH]; intros n Ht.
  - simpl. by rewrite Nat.add_0_r.
  - apply andb_prop in Ht as [Hx Hr]. cbn [each_plan List.filter].
    rewrite (single_plan_typed x Hx). destruct (accepted x), w; simpl;
      rewrite ?IH by done; try done.
    by rewrite Nat.add_succ_r.
Qed.

Lemma succeeds_typed (x : value) (path : string) (fs : FS) :
  composite_record x = true ->
  succeeds x path fs = writable fs path && accepted x.
Proof.
  intros Hx. unfold succeeds. rewrite add_single_plan, (single_plan_typed x Hx).
  by destruct (accepted x), (writable fs path).
Qed.

End Facts.

Section CompositeFacts.
Context `{PyLib}.

Lemma add_single_typed (x : value) (path : string) (fs : FS) :
  composite_record x = true ->
  add_single_composite_food x path fs
  = if writable fs path && accepted x
    then (Ret true, <[path := Reg (content fs path +:+ entry_of x)]> fs)
    else (Ret false, fs).
Proof.
  intros Hx. rewrite add_single_plan, (single_plan_typed x Hx).
  by destruct (accepted x), (writable fs path).
Qed.

Lemma add_each_state (path : string) (items : list value) (n : nat) (fs : FS) :
  forallb composite_record items = true ->
  snd (add_each items path n fs)
  = foldl (fun s x => snd (add_single_composite_food x path s)) fs items.
Proof.
  revert n fs. induction items as [|x rest IH]; intros n fs Ht; [done|].
  apply andb_prop in Ht as [Hx Hr]. cbn [add_each foldl]. unfold mbind, M_bind.
  rewrite (add_single_typed x path fs Hx).
  destruct (writable fs path && accepted x); simpl; by apply IH.
Qed.

Lemma filter_succeeds (path : string) (fs : FS) (items : list value) :
  forallb composite_record items = true ->
  List.filter (fun x => succeeds x path fs) items
  = List.filter (fun x => writable fs path && accepted x) items.
Proof.
  induction items as [|x rest IH]; intros Ht; [done|].
  apply andb_prop in Ht as [Hx Hr]. simpl.
  by rewrite (succeeds_typed x path fs Hx), IH.
Qed.

Lemma accepted_entry (x : value) :
  composite_record x = true -> accepted x = true ->
  exists n cs, entry_of x = composite_line n cs.
Proof.
  destruct x as [| | | | |l|d]; try discriminate. simpl. unfold field.
  intros Ht Ha. apply andb_prop in Ht as [Hn Hc]. apply andb_prop in Ha as [Ha1 Ha2].
  destruct (assoc "name" d) as [[| | | |n| |]|]; try discriminate.
  destruct (assoc "components" d) as [[| | | | |cs|]|]; try discriminate.
  by exists n, cs.
Qed.

End CompositeFacts.

(* ===================================================================== *)
(** * The composite-food converter                                        *)
(* ===================================================================== *)

(** C1.  A record with a non-empty name and a non-empty list of components
    makes [add_single_composite_food] append exactly the line
    [name|lowercase(name),name|c1:s1;...;ck:sk] and its newline, and return
    [True]; the [ci:si] are the components whose name and servings are both
    truthy, in input order, joined with [;].  The output file must be one
    that can be opened, as the append is otherwise reported by [False]. *)
Theorem add_single_appends_line `{PyLib}
    (d : list (string * value)) (n : string) (cs : list value)
    (path : string) (fs : FS) :
  assoc "name" d = Some (VStr n) -> n <> "" ->
  assoc "components" d = Some (VList cs) -> cs <> [] ->
  forallb is_dict cs = true ->
  writable fs path = true ->
  add_single_composite_food (VDict d) path fs
  = (Ret true, <[path := Reg (content fs path +:+ composite_line n cs)]> fs).
Proof.
  intros Hn Hne Hc Hcne Hd W.
  by rewrite add_single_plan, (single_plan_accepts d n cs), W.
Qed.

(** The scenario of the specification: the Ghee Roti record yields the line
    [Ghee Roti|ghee roti,Ghee Roti|Roti:1;Ghee:1]. *)
Lemma add_single_ghee_roti :
  add_single_composite_food (H := Examples.runtime)
    Examples.ghee_roti "composite_foods.txt" ∅
  = (Ret true,
     {[ "composite_foods.txt" :=
          Reg ("Ghee Roti|ghee roti,Ghee Roti|Roti:1;Ghee:1" +:+ newline) ]}).
Proof.
  etrans.
  - apply (add_single_appends_line (H := Examples.runtime) _ "Ghee Roti"
             [Examples.component "Roti" (VInt 1); Examples.component "Ghee" (VInt 1)]);
      [reflexivity | discriminate | reflexivity | discriminate
      | reflexivity | reflexivity].
  - vm_compute. reflexivity.
Defined.

(** C3.  A record whose name is absent or empty, or whose components are
    absent or empty, makes [add_single_composite_food] return [False] and
    leaves every file as it was. *)
Theorem add_single_rejects `{PyLib}
    (d : list (string * value)) (path : string) (fs : FS) :
  absent_or_empty (assoc "name" d) || absent_or_empty (assoc "components" d) = true ->
  add_single_composite_food (VDict d) path fs = (Ret false, fs).
Proof.
  intros Hm. by rewrite add_single_plan, (single_plan_rejects d Hm).
Qed.

Lemma add_single_rejects_nameless :
  add_single_composite_food (H := Examples.runtime)
    Examples.nameless "composite_foods.txt" ∅ = (Ret false, ∅).
Proof.
  apply (add_single_rejects (H := Examples.runtime)). reflexivity.
Defined.

(** C9.  When every component of a record with a non-empty name and a
    non-empty component list is filtered out, [add_single_composite_food]
    still returns [True] and appends the line [name|lowercase(name),name|]
    whose third field is empty. *)
Theorem add_single_all_filtered `{PyLib}
    (d : list (string * value)) (n : string) (cs : list value)
    (path : string) (fs : FS) :
  assoc "name" d = Some (VStr n) -> n <> "" ->
  assoc "components" d = Some (VList cs) -> cs <> [] ->
  forallb is_dict cs = true ->
  forallb (fun c => negb (included c)) cs = true ->
  writable fs path = true ->
  add_single_composite_food (VDict d) path fs
  = (Ret true,
     <[path := Reg (content fs path +:+ n +:+ "|" +:+ str_lower n +:+ "," +:+ n
                      +:+ "|" +:+ "" +:+ newline)]> fs).
Proof.
  intros Hn Hne Hc Hcne Hd Hall W.
  rewrite add_single_plan, (single_plan_accepts d n cs), W by done.
  unfold composite_line.
  assert (List.filter included cs = []) as ->; [|done].
  clear -Hall. induction cs as [|c cs IH]; [done|]. simpl in *.
  apply andb_prop in Hall as [Hc Hcs]. destruct (included c); [done|by apply IH].
Qed.

Lemma add_single_all_filtered_water :
  add_single_composite_food (H := Examples.runtime)
    Examples.all_dropped "composite_foods.txt" ∅
  = (Ret true,
     {[ "composite_foods.txt" := Reg ("Plain Water|plain water,Plain Water|" +:+ newline) ]}).
Proof.
  etrans.
  - apply (add_single_all_filtered (H := Examples.runtime) _ "Plain Water"
             [Examples.component "Water" (VInt 0); Examples.component "" (VInt 2)]);
      [reflexivity | discriminate | reflexivity | discriminate
      | reflexivity | reflexivity | reflexivity].
  - vm_compute. reflexivity.
Defined.

(** C10.  On the empty list [add_composite_food_from_json] returns [True]
    and writes nothing. *)
Theorem from_json_empty_list `{PyLib} (path : string) (fs : FS) :
  add_composite_food_from_json (VList []) path fs = (Ret true, fs).
Proof. reflexivity. Qed.

(** C2.  On a list of [N] typed records of which [K] succeed under
    [add_single_composite_food], [add_composite_food_from_json] runs
    [add_single_composite_food] on every element in order, whatever the
    earlier ones returned, appends the [K] lines of the successful ones and
    returns [True] exactly when [K = N]. *)
Theorem from_json_list_counts `{PyLib} (items : list value) (path : string) (fs : FS) :
  forallb composite_record items = true ->
  let successful := List.filter (fun x => succeeds x path fs) items in
  exists fs',
    add_composite_food_from_json (VList items) path fs
    = (Ret (Nat.eqb (length successful) (length items)), fs')
    /\ fs' = foldl (fun s x => snd (add_single_composite_food x path s)) fs items
    /\ extends fs path (text_of (List.map entry_of successful)) fs'
    /\ length (List.map entry_of successful) = length successful
    /\ Forall (fun x => exists n cs, entry_of x = composite_line n cs) successful.
Proof.
  intros Ht successful. subst successful. rewrite (filter_succeeds path fs items Ht).
  destruct (add_each_plan path items 0 fs) as (fs' & E & X).
  rewrite (each_plan_typed _ items 0 Ht) in E, X. simpl in E, X.
  exists fs'. split; [|split; [|split; [|split]]].
  - unfold add_composite_food_from_json, mbind, M_bind. by rewrite E.
  - rewrite <- (add_each_state path items 0 fs Ht). by rewrite E.
  - done.
  - by rewrite length_map.
  - apply Forall_forall. intros x Hx.
    apply list_elem_of_In, filter_In in Hx as [Hin Hok].
    apply andb_prop in Hok as [_ Ha]. apply accepted_entry; [|done].
    rewrite forallb_forall in Ht. by apply Ht.
Qed.

(** Three records, the second without a name: both others are written and
    the call reports a failure. *)
Lemma from_json_list_counts_mixed :
  let items := [Examples.ghee_roti; Examples.nameless; Examples.all_dropped] in
  forallb composite_record items = true
  /\ List.filter (fun x => succeeds (H := Examples.runtime) x "composite_foods.txt" ∅) items
     = [Examples.ghee_roti; Examples.all_dropped]
  /\ exists fs',
       add_composite_food_from_json (H := Examples.runtime)
         (VList items) "composite_foods.txt" ∅ = (Ret false, fs')
       /\ content fs' "composite_foods.txt"
          = ("Ghee Roti|ghee roti,Ghee Roti|Roti:1;Ghee:1" +:+ newline)
              +:+ ("Plain Water|plain water,Plain Water|" +:+ newline).
Proof.
  intros items. split; [reflexivity|]. split; [vm_compute; reflexivity|].
  destruct (from_json_list_counts (H := Examples.runtime) items "composite_foods.txt" ∅)
    as (fs' & E & _ & (C & _) & _); [reflexivity|].
  exists fs'. split; [exact E|]. rewrite C. vm_compute. reflexivity.
Defined.

(** C7.  A string is parsed inside [add_single_composite_food], after the
    dispatch on lists.  When its content is valid JSON for anything but an
    array or a string, the call yields what it yields on the parsed value;
    when it is not valid JSON, the call returns [False] and writes
    nothing. *)
Theorem from_json_string `{PyLib} (s : string) (path : string) (fs : FS) :
  (forall v, json_loads s = Some v -> is_list v = false -> is_str v = false ->
     add_composite_food_from_json (VStr s) path fs
     = add_composite_food_from_json v path fs)
  /\ (json_loads s = None ->
      add_composite_food_from_json (VStr s) path fs = (Ret false, fs)).
Proof.
  split.
  - intros v Hv Hl Hs. destruct v; try discriminate;
      simpl; rewrite !add_single_plan; unfold single_plan; by rewrite Hv.
  - intros Hn. simpl. rewrite add_single_plan. unfold single_plan. by rewrite Hn.
Qed.

Lemma from_json_string_ghee_roti :
  add_composite_food_from_json (H := Examples.runtime)
    (VStr (Examples.dumps Examples.ghee_roti)) "composite_foods.txt" ∅
  = add_composite_food_from_json (H := Examples.runtime)
      Examples.ghee_roti "composite_foods.txt" ∅
  /\ add_composite_food_from_json (H := Examples.runtime)
       (VStr "{name: Ghee Roti") "composite_foods.txt" ∅ = (Ret false, ∅).
Proof.
  split.
  - apply (proj1 (from_json_string (H := Examples.runtime) _ _ _));
      [vm_compute; reflexivity | reflexivity | reflexivity].
  - apply (proj2 (from_json_string (H := Examples.runtime) _ _ _)).
    vm_compute. reflexivity.
Defined.

(** The claim as it stands fails on a string that holds an array: the list
    held by the string is not processed element by element, the call raises
    [AttributeError] and writes nothing, while the list itself is written. *)
Lemma from_json_string_array_differs :
  json_loads (PyLib := Examples.runtime) (Examples.dumps (VList [Examples.ghee_roti]))
  = Some (VList [Examples.ghee_roti])
  /\ add_composite_food_from_json (H := Examples.runtime)
       (VStr (Examples.dumps (VList [Examples.ghee_roti]))) "composite_foods.txt" ∅
     = (Raise AttributeError, ∅)
  /\ add_composite_food_from_json (H := Examples.runtime)
       (VList [Examples.ghee_roti]) "composite_foods.txt" ∅
     = (Ret true,
        {[ "composite_foods.txt" :=
             Reg ("Ghee Roti|ghee roti,Ghee Roti|Roti:1;Ghee:1" +:+ newline) ]}).
Proof. repeat split; vm_compute; reflexivity. Qed.

(* ===================================================================== *)
(** * Numerals                                                            *)
(* ===================================================================== *)

Lemma is_digit_digit (k : Z) : 0 <= k <= 9 -> is_digit (digit k) = true.
Proof.
  intros Hk.
  assert (k = 0 \/ k = 1 \/ k = 2 \/ k = 3 \/ k = 4 \/ k = 5 \/ k = 6 \/ k = 7
          \/ k = 8 \/ k = 9) as Hc by lia.
  repeat destruct Hc as [-> | Hc]; try reflexivity. by subst.
Qed.

Lemma mod10_bound (x : Z) : 0 <= x mod 10 <= 9.
Proof. pose proof (Z.mod_pos_bound x 10). lia. Qed.

Lemma uint_digits (u : Decimal.uint) : all_digits (NilEmpty.string_of_uint u) = true.
Proof. induction u; simpl; done. Qed.

Lemma int_str_digits (q : Z) : 0 <= q -> all_digits (int_str q) = true.
Proof.
  intros Hq. unfold int_str. destruct q as [|p|p]; [done| |lia].
  simpl. unfold NilZero.string_of_uint.
  destruct (Pos.to_uint p) eqn:E; try done; rewrite <- E; apply uint_digits.
Qed.

Lemma int_str_nonempty (q : Z) : int_str q <> "".
Proof.
  unfold int_str. destruct q as [|p|p]; [done| |done].
  simpl. unfold NilZero.string_of_uint. by destruct (Pos.to_uint p).
Qed.

Lemma hundredths_nonneg (m : N) (e : Z) : 0 <= hundredths m e.
Proof.
  unfold hundredths. destruct (0 <=? e) eqn:He.
  - apply Z.shiftl_nonneg. lia.
  - assert (0 < Z.shiftl 1 (- e)) as Hd.
    { rewrite Z.shiftl_mul_pow2 by lia. apply Z.mul_pos_pos; [lia|].
      apply Z.pow_pos_nonneg; lia. }
    assert (0 <= Z.of_N m * 100 / Z.shiftl 1 (- e)) by (apply Z.div_pos; lia).
    destruct (_ || _); lia.
Qed.

Lemma contains_append (c : ascii) (a b : string) :
  contains c (a +:+ b) = contains c a || contains c b.
Proof.
  induction a as [|x a IH]; [done|]. rewrite append_cons. simpl.
  by rewrite IH, orb_assoc.
Qed.

Lemma contains_digits (c : ascii) (s : string) :
  is_digit c = false -> all_digits s = true -> contains c s = false.
Proof.
  intros Hc. induction s as [|x s IH]; [done|]. simpl. intros Hs.
  apply andb_prop in Hs as [Hx Hs]. rewrite (IH Hs), orb_false_r.
  apply Ascii.eqb_neq. intros ->. congruence.
Qed.

(** A run of digits, a point and two digits. *)
Lemma fraction2_digits (ds : string) (a b : ascii) (seen : bool) :
  all_digits ds = true -> seen = true \/ ds <> "" ->
  is_digit a = true -> is_digit b = true ->
  fraction2 (ds +:+ String "."%char (String a (String b EmptyString))) seen = true.
Proof.
  intros Hds Hs Ha Hb. revert seen Hs. induction ds as [|x ds IH]; intros seen Hs.
  - rewrite append_empty_l. simpl. rewrite Ha, Hb. by destruct Hs as [->|].
  - rewrite append_cons. simpl in Hds. apply andb_prop in Hds as [Hx Hds]. simpl.
    destruct (Ascii.eqb x ".") eqn:Ex.
    + apply Ascii.eqb_eq in Ex. subst x. discriminate Hx.
    + rewrite Hx. simpl. apply IH; [done|by left].
Qed.

Lemma fixed2_two_decimals (neg : bool) (m : N) (e : Z) :
  two_decimals (fixed2 (FFinite neg m e)) = true.
Proof.
  unfold fixed2. pose proof (hundredths_nonneg m e) as Hh.
  set (h := hundredths m e) in *.
  assert (0 <= h / 100) as Hq by (apply Z.div_pos; lia).
  pose proof (int_str_digits _ Hq) as Hd. pose proof (int_str_nonempty (h / 100)) as Hn.
  assert (fraction2 (int_str (h / 100) +:+ "."
                       +:+ String (digit (h / 10 mod 10)) (String (digit (h mod 10)) ""))
                    false = true) as Hf.
  { apply fraction2_digits; [done|by right|..]; apply is_digit_digit, mod10_bound. }
  destruct neg.
  - rewrite append_cons, append_empty_l. simpl. exact Hf.
  - rewrite append_empty_l. unfold two_decimals.
    destruct (int_str (h / 100)) as [|c rest] eqn:E; [done|].
    rewrite append_cons in *. simpl in Hd. apply andb_prop in Hd as [Hc _].
    destruct (Ascii.eqb c "-") eqn:Ec; [|exact Hf].
    apply Ascii.eqb_eq in Ec. subst c. discriminate Hc.
Qed.

Lemma fixed2_no_separator (c : ascii) (f : pyfloat) :
  c = "|"%char \/ c = ","%char -> contains c (fixed2 f) = false.
Proof.
  intros Hc. destruct f as [neg m e|neg|].
  - unfold fixed2. pose proof (hundredths_nonneg m e) as Hh.
    set (h := hundredths m e) in *.
    assert (0 <= h / 100) as Hq by (apply Z.div_pos; lia).
    assert (is_digit c = false) as Hnd by (by destruct Hc as [-> | ->]).
    rewrite !contains_append. rewrite (contains_digits c (int_str (h / 100))) by
      (done || by apply int_str_digits).
    assert (contains c (String (digit (h / 10 mod 10)) (String (digit (h mod 10)) ""))
            = false) as ->.
    { apply contains_digits; [done|]. simpl.
      by rewrite !is_digit_digit by apply mod10_bound. }
    by destruct neg, Hc as [-> | ->].
  - by destruct neg, Hc as [-> | ->].
  - by destruct Hc as [-> | ->].
Qed.

Lemma float_of_int_finite (z : Z) (f : pyfloat) :
  float_of_int z = Ret f -> exists neg m e, f = FFinite neg m e.
Proof.
  unfold float_of_int. destruct (_ <=? 53); [intros [= <-]; eauto|].
  destruct (_ <=? _); [done|]. intros [= <-]. eauto.
Qed.

Lemma float_of_int_small (z : Z) :
  Z.abs z < 2 ^ 53 -> float_of_int z = Ret (FFinite (z <? 0) (Z.to_N (Z.abs z)) 0).
Proof.
  intros Hz. unfold float_of_int.
  assert (Z.log2 (Z.abs z) + 1 <= 53) as Hb.
  { destruct (Z.eq_dec (Z.abs z) 0) as [->|Hnz]; [done|].
    assert (Z.log2 (Z.abs z) < 53); [|lia]. apply Z.log2_lt_pow2; lia. }
  apply Z.leb_le in Hb. by rewrite Hb.
Qed.

Lemma hundredths_exact (m : N) : hundredths m 0 = Z.of_N m * 100.
Proof. unfold hundredths. change (0 <=? 0) with true. cbv iota zeta. apply Z.shiftl_0_r. Qed.

Lemma fixed2_of_int (z : Z) :
  fixed2 (FFinite (z <? 0) (Z.to_N (Z.abs z)) 0) = int_str z +:+ ".00".
Proof.
  unfold fixed2. rewrite hundredths_exact, Z2N.id by lia.
  replace (Z.abs z * 100 / 100) with (Z.abs z) by (symmetry; apply Z.div_mul; lia).
  replace (Z.abs z * 100 / 10 mod 10) with 0.
  2:{ replace (Z.abs z * 100) with (Z.abs z * 10 * 10) by lia.
      rewrite Z.div_mul by lia. symmetry. apply Z.mod_mul. lia. }
  replace (Z.abs z * 100 mod 10) with 0.
  2:{ replace (Z.abs z * 100) with (Z.abs z * 10 * 10) by lia.
      symmetry. apply Z.mod_mul. lia. }
  by destruct z.
Qed.

(** ** Splitting and joining *)

Lemma split_no_sep (sep : ascii) (a : string) :
  contains sep a = false -> split sep a = [a].
Proof.
  induction a as [|c a IH]; [done|]. simpl. intros Hc.
  apply orb_false_elim in Hc as [Hc Ha]. by rewrite Hc, (IH Ha).
Qed.

Lemma split_append (sep : ascii) (a b : string) :
  contains sep a = false -> split sep (a +:+ String sep b) = a :: split sep b.
Proof.
  induction a as [|c a IH]; intros Hc.
  - rewrite append_empty_l. simpl. by rewrite Ascii.eqb_refl.
  - rewrite append_cons. simpl in *. apply orb_false_elim in Hc as [Hc Ha].
    by rewrite Hc, (IH Ha).
Qed.

Lemma split_join (sep : ascii) (ks : list string) :
  ks <> [] -> Forall (fun k => contains sep k = false) ks ->
  split sep (join (String sep EmptyString) ks) = ks.
Proof.
  intros Hne Hks. induction Hks as [|k ks Hk Hks IH]; [done|].
  destruct ks as [|k' ks].
  - simpl. by apply split_no_sep.
  - change (join (String sep "") (k :: k' :: ks))
      with (k +:+ String sep (join (String sep "") (k' :: ks))).
    rewrite split_append by done. by rewrite IH.
Qed.

Lemma contains_join (c sep : ascii) (ks : list string) :
  Ascii.eqb sep c = false -> Forall (fun k => contains c k = false) ks ->
  contains c (join (String sep EmptyString) ks) = false.
Proof.
  intros Hsep Hks. induction Hks as [|k ks Hk Hks IH]; [done|].
  destruct ks as [|k' ks]; [done|].
  change (join (String sep "") (k :: k' :: ks))
    with (k +:+ String sep (join (String sep "") (k' :: ks))).
  rewrite contains_append, Hk. cbn [contains orb]. by rewrite Hsep, IH.
Qed.

Lemma strings_of_strs (ks : list string) : strings_of (List.map VStr ks) = Ret ks.
Proof. induction ks as [|k ks IH]; [done|]. simpl. by rewrite IH. Qed.

Lemma str_join_strs (sep : string) (ks : list string) :
  str_join sep (VList (List.map VStr ks)) = Ret (join sep ks).
Proof. unfold str_join. simpl. by rewrite strings_of_strs. Qed.

Section Format.
Context `{PyLib}.

Lemma format_2f_two_decimals (v : value) (cal : string) :
  finite v = true -> format_2f v = Ret cal -> two_decimals cal = true.
Proof.
  intros Hf Hc. destruct v as [|b|z|f| | |]; simpl in Hc; try discriminate.
  - destruct (float_of_int _) as [f|] eqn:E; [|done]. simpl in Hc.
    apply float_of_int_finite in E as (n & m & e & ->). injection Hc as <-.
    apply fixed2_two_decimals.
  - destruct (float_of_int _) as [f|] eqn:E; [|done]. simpl in Hc.
    apply float_of_int_finite in E as (n & m & e & ->). injection Hc as <-.
    apply fixed2_two_decimals.
  - destruct f as [n m e|n|]; try discriminate. injection Hc as <-.
    apply fixed2_two_decimals.
Qed.

Lemma format_2f_no_separator (c : ascii) (v : value) (cal : string) :
  c = "|"%char \/ c = ","%char -> format_2f v = Ret cal -> contains c cal = false.
Proof.
  intros Hsep Hc. destruct v as [|b|z|f| | |]; simpl in Hc; try discriminate.
  - destruct (float_of_int _) as [f|]; [|done]. injection Hc as <-.
    by apply fixed2_no_separator.
  - destruct (float_of_int _) as [f|]; [|done]. injection Hc as <-.
    by apply fixed2_no_separator.
  - injection Hc as <-. by apply fixed2_no_separator.
Qed.

End Format.

(* ===================================================================== *)
(** * The basic-food converter                                            *)
(* ===================================================================== *)

Section BasicFacts.
Context `{PyLib}.

(** [process_food_item] builds its line, then writes it. *)
Lemma process_food_item_line (food : value) (out : string) (fs : FS) :
  process_food_item food out fs
  = match basic_line food with
    | Ret line => write out line fs
    | Raise e => (Raise e, fs)
    end.
Proof.
  unfold process_food_item, basic_line.
  rewrite bind_lift. destruct (get food "id" (VStr "Unknown")) as [fallback|e]; simpl; [|done].
  rewrite bind_lift. destruct (get food "name" fallback) as [identifier|e]; simpl; [|done].
  rewrite bind_lift. destruct (get food "keywords" (VList [])) as [kl|e]; simpl; [|done].
  rewrite bind_lift. destruct (str_join "," kl) as [keywords|e]; simpl; [|done].
  rewrite bind_lift.
  destruct (get food "calories_per_serving" (VInt 0)) as [calories|e]; simpl; [|done].
  rewrite bind_lift. by destruct (format_2f calories) as [formatted|e].
Qed.

(** On an open file the loop writes the lines of the records up to the
    first one that raises, and stops there. *)
Lemma process_each_plan (foods : list value) (out c : string) (fs : FS) :
  fs !! out = Some (Reg c) ->
  process_each foods out fs
  = (fst (lines_plan foods), <[out := Reg (c +:+ snd (lines_plan foods))]> fs).
Proof.
  revert c fs. induction foods as [|food rest IH]; intros c fs E.
  - simpl. by rewrite append_empty_r, insert_id.
  - cbn [process_each lines_plan]. unfold mbind, M_bind.
    rewrite process_food_item_line. destruct (basic_line food) as [line|e].
    + unfold write. rewrite E.
      rewrite (IH (c +:+ line)) by apply lookup_insert_eq.
      destruct (lines_plan rest) as [r text]. simpl.
      by rewrite insert_insert_eq, append_assoc.
    + simpl. by rewrite append_empty_r, insert_id.
Qed.

(** The three [except] clauses catch every exception. *)
Lemma convert_catches (body : M unit) (fs : FS) :
  try_except body
    (fun e : exn =>
       match e with
       | FileNotFoundError => mret tt
       | JSONDecodeError => mret tt
       | _ => mret tt
       end) fs
  = (Ret tt, snd (body fs)).
Proof.
  unfold try_except. destruct (body fs) as [[[]|e] fs']; [done|by destruct e].
Qed.

(** The records of a document, processed on an open file. *)
Lemma process_records_plan (food_data : value) (out c : string) (fs : FS) :
  fs !! out = Some (Reg c) ->
  snd (match food_data with
       | VList foods => process_each foods out
       | _ => process_food_item food_data out
       end fs)
  = <[out := Reg (c +:+ snd (lines_plan (records_of food_data)))]> fs.
Proof.
  intros E.
  assert (snd (process_food_item food_data out fs)
          = <[out := Reg (c +:+ snd (lines_plan [food_data]))]> fs) as Hone.
  { rewrite process_food_item_line. cbn [lines_plan].
    destruct (basic_line food_data) as [line|e]; simpl.
    - unfold write. rewrite E. simpl. by rewrite append_empty_r.
    - by rewrite append_empty_r, insert_id. }
  destruct food_data; try exact Hone.
  simpl records_of. by rewrite (process_each_plan _ out c fs E).
Qed.

(** The whole call: it never raises, and it writes the lines of the plan
    when the input is there and the output can be opened. *)
Lemma convert_plan (json_file out : string) (fs : FS) :
  convert_json_to_basic_foods json_file out fs
  = (Ret tt,
     match input_of fs json_file with
     | Some food_data =>
         if writable fs out
         then <[out := Reg (content fs out +:+ snd (lines_plan (records_of food_data)))]> fs
         else fs
     | None => fs
     end).
Proof.
  unfold convert_json_to_basic_foods. rewrite convert_catches. f_equal.
  unfold input_of, read, load. unfold mbind at 1. unfold M_bind at 1.
  destruct (fs !! json_file) as [[text|]|] eqn:Ein; [|done..].
  rewrite bind_lift. destruct (json_loads text) as [food_data|]; [|done].
  unfold mbind, M_bind, open_append, writable, content.
  destruct (fs !! out) as [[c|]|] eqn:Eout; [| done |].
  - by rewrite (process_records_plan food_data out c fs Eout).
  - rewrite (process_records_plan food_data out "" (<[out := Reg ""]> fs))
      by apply lookup_insert_eq.
    by rewrite insert_insert_eq.
Qed.

Lemma lines_plan_stops (before after : list value) (bad : value)
    (lines : list string) (e : exn) :
  Forall2 (fun food line => basic_line food = Ret line) before lines ->
  basic_line bad = Raise e ->
  lines_plan (before ++ bad :: after) = (Raise e, text_of lines).
Proof.
  intros Hb Hbad. induction Hb as [|food line before lines Hf Hb IH]; simpl.
  - by rewrite Hbad.
  - by rewrite Hf, IH.
Qed.

(** What a call adds to the output depends on the files only through
    whether the output can be opened. *)
Lemma add_single_effect (x : value) (path : string) (w : bool) :
  exists (r : result bool) (text : string), forall fs,
    writable fs path = w ->
    exists fs', add_single_composite_food x path fs = (r, fs')
                /\ extends fs path text fs'.
Proof.
  destruct (single_plan x) as [[entry|]|e] eqn:E; [destruct w|..].
  - exists (Ret true), entry. intros fs W. rewrite add_single_plan, E, W.
    eexists. split; [done|by apply extends_insert].
  - exists (Ret false), "". intros fs W. rewrite add_single_plan, E, W.
    eexists. split; [done|apply extends_refl].
  - exists (Ret false), "". intros fs W. rewrite add_single_plan, E.
    eexists. split; [done|apply extends_refl].
  - exists (Raise e), "". intros fs W. rewrite add_single_plan, E.
    eexists. split; [done|apply extends_refl].
Qed.

Lemma from_json_effect (json_data : value) (path : string) (w : bool) :
  exists (r : result bool) (text : string), forall fs,
    writable fs path = w ->
    exists fs', add_composite_food_from_json json_data path fs = (r, fs')
                /\ extends fs path text fs'.
Proof.
  destruct json_data as [| | | | |items|];
    try apply (add_single_effect _ path w).
  exists (n ← fst (each_plan w items 0); Ret (Nat.eqb n (length items))),
         (snd (each_plan w items 0)).
  intros fs W. destruct (add_each_plan path items 0 fs) as (fs' & E & X).
  rewrite W in E, X. exists fs'. split; [|done].
  unfold add_composite_food_from_json, mbind at 1, M_bind at 1. rewrite E.
  by destruct (fst (each_plan w items 0)).
Qed.

Lemma convert_extends (json_file out : string) (fs : FS) :
  extends fs out
    match input_of fs json_file with
    | Some food_data =>
        if writable fs out then snd (lines_plan (records_of food_data)) else ""
    | None => ""
    end
    (snd (convert_json_to_basic_foods json_file out fs)).
Proof.
  rewrite convert_plan. simpl.
  destruct (input_of fs json_file); [destruct (writable fs out) eqn:W|];
    [by apply extends_insert | apply extends_refl..].
Qed.

End BasicFacts.

(** C5.  One [try] statement encloses the whole loop of
    [convert_json_to_basic_foods]: a record whose processing raises stops
    the loop.  The lines of the records before it are written, no line is
    written for it or for any record after it, and the call returns
    normally. *)
Theorem convert_stops_at_bad_record `{PyLib}
    (json_file out text : string) (fs : FS)
    (before after : list value) (bad : value) (lines : list string) (e : exn) :
  fs !! json_file = Some (Reg text) ->
  json_loads text = Some (VList (before ++ bad :: after)) ->
  writable fs out = true ->
  Forall2 (fun food line => basic_line food = Ret line) before lines ->
  basic_line bad = Raise e ->
  convert_json_to_basic_foods json_file out fs
  = (Ret tt, <[out := Reg (content fs out +:+ text_of lines)]> fs).
Proof.
  intros Hin Hload W Hb Hbad. rewrite convert_plan. unfold input_of.
  rewrite Hin, Hload, W. simpl records_of.
  by rewrite (lines_plan_stops before after bad lines e Hb Hbad).
Qed.

Lemma convert_stops_at_bad_calories :
  convert_json_to_basic_foods (H := Examples.runtime) "food_data.json" "basic_foods.txt"
    (Examples.with_input Examples.mixed_batch)
  = (Ret tt,
     <["basic_foods.txt" :=
         Reg ("White Bread Slice|bread,sandwich bread,loaf|70.00" +:+ newline)]>
       (Examples.with_input Examples.mixed_batch)).
Proof.
  etrans.
  - apply (convert_stops_at_bad_record (H := Examples.runtime)
             "food_data.json" "basic_foods.txt"
             (Examples.dumps Examples.mixed_batch)
             (Examples.with_input Examples.mixed_batch)
             [Examples.white_bread] [Examples.plain_rice] Examples.bad_calories
             ["White Bread Slice|bread,sandwich bread,loaf|70.00" +:+ newline]
             ValueError);
      [reflexivity | vm_compute; reflexivity | reflexivity
      | repeat constructor | reflexivity].
  - vm_compute. reflexivity.
Defined.

(** The claim as it stands fails: the record after the bad one would give
    a line of its own, and that line is not written. *)
Lemma convert_drops_records_after_bad :
  let fs := Examples.with_input Examples.mixed_batch in
  let fs' := snd (convert_json_to_basic_foods (H := Examples.runtime)
                    "food_data.json" "basic_foods.txt" fs) in
  input_of (H := Examples.runtime) fs "food_data.json"
  = Some (VList [Examples.white_bread; Examples.bad_calories; Examples.plain_rice])
  /\ basic_line (H := Examples.runtime) Examples.bad_calories = Raise ValueError
  /\ basic_line (H := Examples.runtime) Examples.plain_rice
     = Ret ("Rice||130.00" +:+ newline)
  /\ content fs' "basic_foods.txt"
     = "White Bread Slice|bread,sandwich bread,loaf|70.00" +:+ newline.
Proof. repeat split; vm_compute; reflexivity. Qed.

(** C8.  Neither converter is idempotent.  A second call with the same
    input and output path appends to the result of the first call the very
    lines that the first call appended; what was in the file stays in
    front, unchanged.  For [convert_json_to_basic_foods] the input is the
    file under [json_file], which the second call must find as the first
    one did. *)
Theorem converters_append_again `{PyLib} :
  (forall (json_data : value) (path : string) (fs : FS),
     let first := add_composite_food_from_json json_data path fs in
     let second := add_composite_food_from_json json_data path (snd first) in
     exists lines,
       content (snd first) path = content fs path +:+ lines
       /\ content (snd second) path = content (snd first) path +:+ lines
       /\ (lines <> "" -> content (snd second) path <> content (snd first) path))
  /\ (forall (json_file out : string) (fs : FS),
       let first := convert_json_to_basic_foods json_file out fs in
       snd first !! json_file = fs !! json_file ->
       let second := convert_json_to_basic_foods json_file out (snd first) in
       exists lines,
         content (snd first) out = content fs out +:+ lines
         /\ content (snd second) out = content (snd first) out +:+ lines
         /\ (lines <> "" -> content (snd second) out <> content (snd first) out)).
Proof.
  split.
  - intros json_data path fs first second.
    destruct (from_json_effect json_data path (writable fs path)) as (r & lines & Heff).
    destruct (Heff fs eq_refl) as (fs1 & E1 & (C1 & W1 & O1)).
    destruct (Heff fs1 W1) as (fs2 & E2 & (C2 & W2 & O2)).
    subst first second. rewrite E1. simpl. rewrite E2. simpl.
    exists lines. split; [done|]. split; [done|].
    intros Hne Heq. rewrite C2 in Heq. by apply append_same_l in Heq.
  - intros json_file out fs first Hsame second.
    pose proof (convert_extends json_file out fs) as (C1 & W1 & O1).
    pose proof (convert_extends json_file out (snd first)) as X2.
    assert (input_of (snd first) json_file = input_of fs json_file) as Hin
      by (unfold input_of; by rewrite Hsame).
    fold first in C1, W1. rewrite Hin, W1 in X2. destruct X2 as (C2 & _ & _).
    fold second in C2. eexists. split; [exact C1|]. split; [exact C2|].
    intros Hne Heq. rewrite C2 in Heq. by apply append_same_l in Heq.
Qed.

(** Two runs of each converter on the example data. *)
Lemma converters_append_again_examples :
  (let first := add_composite_food_from_json (H := Examples.runtime)
                  Examples.ghee_roti "composite_foods.txt" ∅ in
   let second := add_composite_food_from_json (H := Examples.runtime)
                   Examples.ghee_roti "composite_foods.txt" (snd first) in
   exists lines,
     lines = "Ghee Roti|ghee roti,Ghee Roti|Roti:1;Ghee:1" +:+ newline
     /\ content (snd first) "composite_foods.txt" = lines
     /\ content (snd second) "composite_foods.txt" = lines +:+ lines)
  /\ (let fs := Examples.with_input Examples.good_batch in
      let first := convert_json_to_basic_foods (H := Examples.runtime)
                     "food_data.json" "basic_foods.txt" fs in
      let second := convert_json_to_basic_foods (H := Examples.runtime)
                      "food_data.json" "basic_foods.txt" (snd first) in
      exists lines,
        lines = ("White Bread Slice|bread,sandwich bread,loaf|70.00" +:+ newline)
                  +:+ ("Rice||130.00" +:+ newline)
        /\ content (snd first) "basic_foods.txt" = lines
        /\ content (snd second) "basic_foods.txt" = lines +:+ lines).
Proof.
  split.
  - intros first second.
    destruct (proj1 (converters_append_again (H := Examples.runtime))
                Examples.ghee_roti "composite_foods.txt" ∅) as (lines & E1 & E2 & _).
    fold first in E1, E2. fold second in E2. exists lines.
    assert (lines = "Ghee Roti|ghee roti,Ghee Roti|Roti:1;Ghee:1" +:+ newline) as Hl.
    { rewrite <- (append_empty_l lines). etrans; [symmetry; exact E1|].
      vm_compute. reflexivity. }
    split; [exact Hl|]. split; [exact E1|]. rewrite E2, E1. reflexivity.
  - intros fs first second.
    destruct (proj2 (converters_append_again (H := Examples.runtime))
                "food_data.json" "basic_foods.txt" fs) as (lines & E1 & E2 & _);
      [vm_compute; reflexivity|].
    fold first in E1, E2. fold second in E2. exists lines.
    assert (lines = ("White Bread Slice|bread,sandwich bread,loaf|70.00" +:+ newline)
                      +:+ ("Rice||130.00" +:+ newline)) as Hl.
    { rewrite <- (append_empty_l lines). etrans; [symmetry; exact E1|].
      vm_compute. reflexivity. }
    split; [exact Hl|]. split; [exact E1|]. rewrite E2, E1. reflexivity.
Defined.

(** ** Reading the numeral back *)

Lemma digit_value_digit (k : Z) : 0 <= k <= 9 -> digit_value (digit k) = k.
Proof.
  intros Hk.
  assert (k = 0 \/ k = 1 \/ k = 2 \/ k = 3 \/ k = 4 \/ k = 5 \/ k = 6 \/ k = 7
          \/ k = 8 \/ k = 9) as Hc by lia.
  repeat destruct Hc as [-> | Hc]; try reflexivity. by subst.
Qed.

Lemma read_int_str (z : Z) : read_int (int_str z) = Some z.
Proof.
  unfold read_int, int_str. rewrite NilZero.isi.
  - simpl. by rewrite DecimalZ.of_to.
  - destruct z as [|p|p]; simpl; try discriminate.
    intros [= E]. by apply Unsigned.to_uint_nonnil in E.
  - destruct z as [|p|p]; simpl; try discriminate.
    intros [= E]. by apply Unsigned.to_uint_nonnil in E.
Qed.

Lemma hundredths_digits (h : Z) :
  0 <= h -> h / 100 * 100 + h / 10 mod 10 * 10 + h mod 10 = h.
Proof.
  intros Hh. pose proof (Z.div_mod h 10 ltac:(lia)) as H1.
  pose proof (Z.div_mod (h / 10) 10 ltac:(lia)) as H2.
  rewrite Z.div_div in H2 by lia. change (10 * 10) with 100 in H2. lia.
Qed.

(** The numeral of [h] hundredths has two decimals and denotes [h]. *)
Lemma numeral_reads (neg : bool) (h : Z) :
  0 <= h ->
  reads_as ((if neg then "-" else "") +:+ int_str (h / 100) +:+ "."
              +:+ String (digit (h / 10 mod 10)) (String (digit (h mod 10)) ""))
           neg h.
Proof.
  intros Hh.
  assert (0 <= h / 100) as Hq by (apply Z.div_pos; lia).
  pose proof (int_str_digits _ Hq) as Hd. pose proof (int_str_nonempty (h / 100)) as Hn.
  pose proof (is_digit_digit _ (mod10_bound (h / 10))) as Ha.
  pose proof (is_digit_digit _ (mod10_bound h)) as Hb.
  set (whole := int_str (h / 100)) in *.
  set (a := digit (h / 10 mod 10)) in *. set (b := digit (h mod 10)) in *.
  assert (fraction2 (whole +:+ "." +:+ String a (String b "")) false = true) as Hf
    by (apply fraction2_digits; [done|by right|done..]).
  assert (split "." (whole +:+ "." +:+ String a (String b ""))
          = [whole; String a (String b "")]) as Hs.
  { change (whole +:+ "." +:+ String a (String b ""))
      with (whole +:+ String "." (String a (String b ""))).
    rewrite split_append by (by apply contains_digits).
    rewrite split_no_sep; [done|]. apply contains_digits; [done|]. simpl.
    by rewrite Ha, Hb. }
  assert (read_int whole = Some (h / 100)) as Hr by apply read_int_str.
  assert (h / 100 * 100 + digit_value a * 10 + digit_value b = h) as Hv.
  { unfold a, b. rewrite !digit_value_digit by apply mod10_bound.
    by apply hundredths_digits. }
  assert (exists c rest, whole = String c rest /\ Ascii.eqb c "-" = false)
    as (c & rest & Hw & Hc).
  { destruct whole as [|c rest]; [done|]. exists c, rest. split; [done|].
    simpl in Hd. apply andb_prop in Hd as [Hc _].
    destruct (Ascii.eqb c "-") eqn:Ec; [|done].
    apply Ascii.eqb_eq in Ec. subst c. discriminate Hc. }
  destruct neg.
  - rewrite append_cons, append_empty_l. split.
    + simpl. exact Hf.
    + unfold read_two_decimals. simpl Ascii.eqb. cbv iota.
      by rewrite Hs, Ha, Hb, Hr, Hv.
  - rewrite append_empty_l. split.
    + unfold two_decimals. rewrite Hw in *. rewrite append_cons in *.
      by rewrite Hc.
    + unfold read_two_decimals. rewrite Hw in *. rewrite append_cons in *.
      rewrite Hc. by rewrite Hs, Ha, Hb, Hr, Hv.
Qed.

(** ** Rounding *)

Lemma pow2_pos (n : Z) : 0 <= n -> 0 < 2 ^ n.
Proof. intros. by apply Z.pow_pos_nonneg. Qed.

(** Rounding a quotient up when the remainder is above the half, or at the
    half with an odd quotient, gives the nearest integer, ties to even. *)
Lemma round_half_even (n d : Z) :
  0 < d ->
  nearest_even n d
    (if (d <? 2 * (n mod d)) || ((2 * (n mod d) =? d) && Z.odd (n / d))
     then n / d + 1 else n / d).
Proof.
  intros Hd. pose proof (Z.div_mod n d ltac:(lia)) as Hn.
  pose proof (Z.mod_pos_bound n d Hd) as Hr.
  set (q := n / d) in *. set (r := n mod d) in *. unfold nearest_even.
  destruct (d <? 2 * r) eqn:E1; simpl.
  - apply Z.ltb_lt in E1. split; [lia|]. intros Ht. lia.
  - apply Z.ltb_ge in E1. destruct (2 * r =? d) eqn:E2; simpl.
    + apply Z.eqb_eq in E2. destruct (Z.odd q) eqn:Eo.
      * split; [lia|]. intros _. by rewrite Z.even_add, <- Z.negb_odd, Eo.
      * split; [lia|]. intros _. by rewrite <- Z.negb_odd, Eo.
    + apply Z.eqb_neq in E2. split; [lia|]. intros Ht. lia.
Qed.

(** There is one such integer. *)
Lemma nearest_even_unique (num den h h' : Z) :
  0 < den -> nearest_even num den h -> nearest_even num den h' -> h = h'.
Proof.
  intros Hd [H1 T1] [H2 T2].
  destruct (Z.eq_dec h h') as [|Hne]; [done|exfalso].
  assert (h' = h + 1 \/ h = h' + 1) as Hcase by nia.
  assert (2 * Z.abs (num - h * den) = den) as E1 by nia.
  assert (2 * Z.abs (num - h' * den) = den) as E2 by nia.
  specialize (T1 E1). specialize (T2 E2).
  destruct Hcase as [-> | ->].
  - rewrite Z.even_add, T1 in T2. discriminate.
  - rewrite Z.even_add, T2 in T1. discriminate.
Qed.

Lemma hundredths_nearest (m : N) (e : Z) :
  nearest_even (100 * fst (fraction_of m e)) (snd (fraction_of m e)) (hundredths m e).
Proof.
  unfold fraction_of, hundredths. destruct (0 <=? e) eqn:He; simpl fst; simpl snd.
  - apply Z.leb_le in He. rewrite Z.shiftl_mul_pow2 by done.
    unfold nearest_even. replace (_ - _) with 0 by lia. simpl. lia.
  - apply Z.leb_gt in He. rewrite Z.shiftl_1_l.
    replace (100 * Z.of_N m) with (Z.of_N m * 100) by lia.
    apply round_half_even, pow2_pos. lia.
Qed.

Lemma hundredths_of_int (k sh : Z) :
  0 <= k -> 0 <= sh -> hundredths (Z.to_N k) sh = 100 * (k * 2 ^ sh).
Proof.
  intros Hk Hsh. unfold hundredths. apply Z.leb_le in Hsh as Hb. rewrite Hb.
  rewrite Z2N.id, Z.shiftl_mul_pow2 by done. lia.
Qed.

(** [float(z)] is [z] rounded to 53 significant bits, ties to even. *)
Lemma float_of_int_nearest (z : Z) (f : pyfloat) :
  float_of_int z = Ret f ->
  exists k,
    0 <= k
    /\ nearest_even (Z.abs z) (2 ^ excess_bits (Z.abs z)) k
    /\ f = FFinite (z <? 0) (Z.to_N k) (excess_bits (Z.abs z)).
Proof.
  unfold float_of_int, excess_bits. set (a := Z.abs z).
  assert (0 <= a) as Ha by (unfold a; lia).
  destruct (Z.log2 a + 1 <=? 53) eqn:Hb.
  - apply Z.leb_le in Hb. intros [= <-]. exists a.
    rewrite Z.max_l by lia. split; [done|]. split; [|done].
    unfold nearest_even. simpl (2 ^ 0). replace (a - a * 1) with 0 by lia. simpl. lia.
  - apply Z.leb_gt in Hb. set (sh := Z.log2 a + 1 - 53).
    assert (0 < sh) as Hsh by (unfold sh; lia).
    rewrite Z.max_r by lia. replace (Z.log2 a - 52) with sh by (unfold sh; lia).
    rewrite Z.shiftr_div_pow2, !Z.shiftl_mul_pow2 by lia.
    rewrite !Z.mul_1_l.
    pose proof (pow2_pos sh ltac:(lia)) as Hd.
    assert (2 ^ sh = 2 * 2 ^ (sh - 1)) as Hhalf.
    { replace sh with (1 + (sh - 1)) at 1 by lia. rewrite Z.pow_add_r by lia. done. }
    assert (a - a / 2 ^ sh * 2 ^ sh = a mod 2 ^ sh) as ->
      by (pose proof (Z.div_mod a (2 ^ sh) ltac:(lia)); lia).
    pose proof (round_half_even a (2 ^ sh) Hd) as Hne.
    assert ((2 ^ (sh - 1) <? a mod 2 ^ sh) = (2 ^ sh <? 2 * (a mod 2 ^ sh))) as E1.
    { destruct (2 ^ (sh - 1) <? a mod 2 ^ sh) eqn:E; symmetry.
      - apply Z.ltb_lt in E. apply Z.ltb_lt. lia.
      - apply Z.ltb_ge in E. apply Z.ltb_ge. lia. }
    assert ((a mod 2 ^ sh =? 2 ^ (sh - 1)) = (2 * (a mod 2 ^ sh) =? 2 ^ sh)) as E2.
    { destruct (a mod 2 ^ sh =? 2 ^ (sh - 1)) eqn:E; symmetry.
      - apply Z.eqb_eq in E. apply Z.eqb_eq. lia.
      - apply Z.eqb_neq in E. apply Z.eqb_neq. lia. }
    rewrite E1, E2.
    match type of Hne with nearest_even _ _ ?x => set (k := x) in * end.
    assert (0 <= k).
    { assert (0 <= a / 2 ^ sh) by (apply Z.div_pos; lia).
      unfold k. destruct (_ || _); lia. }
    destruct (_ <=? _); [done|]. intros [= <-]. exists k. done.
Qed.

(** What [format_2f] returns is the value, rounded and written out. *)
Lemma format_2f_value (v : value) (cal : string) :
  format_2f v = Ret cal -> formats_value v cal.
Proof.
  intros Hc. destruct v as [|b|z|f| | |]; simpl in Hc; try discriminate.
  - destruct b; vm_compute in Hc; by injection Hc as <-.
  - destruct (float_of_int z) as [f|] eqn:E; [|done]. simpl in Hc.
    injection Hc as <-.
    apply float_of_int_nearest in E as (k & Hk & Hne & ->).
    assert (0 <= excess_bits (Z.abs z)) as Hsh by (unfold excess_bits; lia).
    exists k. split; [done|]. unfold fixed2.
    rewrite (hundredths_of_int k _ Hk Hsh). apply numeral_reads.
    pose proof (pow2_pos _ Hsh). nia.
  - destruct f as [neg m e|neg|]; simpl; injection Hc as <-; try done.
    exists (hundredths m e). split; [apply hundredths_nearest|].
    apply numeral_reads, hundredths_nonneg.
Qed.

(** C4.  When [process_food_item] writes the line of a record, the third
    field is its [calories_per_serving], [0] when absent.  A float that is
    a number is written as the nearest hundredth of its exact value, ties
    to even, with exactly two digits after the point; an [int] likewise,
    once rounded to 53 significant bits as a float holds it, so that an
    integer below [2^53] in absolute value is itself followed by [.00]; a
    [bool] is [1.00] or [0.00]; an absent value is [0.00].  A float that is
    no number is written [inf], [-inf] or [nan]. *)
Theorem calories_two_decimals `{PyLib}
    (d : list (string * value)) (out c : string) (fs : FS) (kw cal : string) :
  fs !! out = Some (Reg c) ->
  str_join "," (field d "keywords" (VList [])) = Ret kw ->
  format_2f (field d "calories_per_serving" (VInt 0)) = Ret cal ->
  process_food_item (VDict d) out fs
  = (Ret tt,
     <[out := Reg (c +:+ str (field d "name" (field d "id" (VStr "Unknown")))
                     +:+ "|" +:+ kw +:+ "|" +:+ cal +:+ newline)]> fs)
  /\ formats_value (field d "calories_per_serving" (VInt 0)) cal
  /\ (finite (field d "calories_per_serving" (VInt 0)) = true ->
      two_decimals cal = true)
  /\ (assoc "calories_per_serving" d = None -> cal = "0.00")
  /\ (forall z, assoc "calories_per_serving" d = Some (VInt z) ->
        Z.abs z < 2 ^ 53 -> cal = int_str z +:+ ".00").
Proof.
  intros Hout Hkw Hcal. split; [|split; [|split; [|split]]].
  - rewrite process_food_item_line. unfold basic_line. simpl.
    unfold field in *. rewrite Hkw. simpl. rewrite Hcal. simpl.
    unfold write. by rewrite Hout.
  - by apply format_2f_value.
  - intros Hfin. by apply (format_2f_two_decimals _ _ Hfin Hcal).
  - intros Habs. unfold field in Hcal. rewrite Habs in Hcal. simpl in Hcal.
    by injection Hcal as <-.
  - intros z Hz Hsmall. unfold field in Hcal. rewrite Hz in Hcal. simpl in Hcal.
    rewrite (float_of_int_small z Hsmall) in Hcal. simpl in Hcal.
    injection Hcal as <-. apply fixed2_of_int.
Qed.

(** The record of the docstring: [70] is written [70.00], which reads as
    7000 hundredths.  One eighth lies halfway between [0.12] and [0.13]
    and is written [0.12]. *)
Lemma calories_two_decimals_white_bread :
  (process_food_item (H := Examples.runtime) Examples.white_bread "basic_foods.txt"
     {[ "basic_foods.txt" := Reg "" ]}
   = (Ret tt,
      {[ "basic_foods.txt" :=
           Reg ("White Bread Slice|bread,sandwich bread,loaf|70.00" +:+ newline) ]})
   /\ two_decimals "70.00" = true
   /\ formats_value (VInt 70) "70.00"
   /\ read_two_decimals "70.00" = Some (false, 7000))
  /\ (process_food_item (H := Examples.runtime)
        (VDict [("name", VStr "Butter");
                ("calories_per_serving", VFloat (FFinite false 1 (-3)))])
        "basic_foods.txt" {[ "basic_foods.txt" := Reg "" ]}
      = (Ret tt, {[ "basic_foods.txt" := Reg ("Butter||0.12" +:+ newline) ]})
      /\ formats_value (VFloat (FFinite false 1 (-3))) "0.12"
      /\ read_two_decimals "0.12" = Some (false, 12)).
Proof.
  split.
  - destruct (calories_two_decimals (H := Examples.runtime)
                [("id", VStr "food001"); ("name", VStr "White Bread Slice");
                 ("keywords", VList [VStr "bread"; VStr "sandwich bread"; VStr "loaf"]);
                 ("calories_per_serving", VInt 70)]
                "basic_foods.txt" "" {[ "basic_foods.txt" := Reg "" ]}
                "bread,sandwich bread,loaf" "70.00")
      as (E & V & T & _); [reflexivity..|].
    split; [etrans; [exact E|vm_compute; reflexivity]|].
    split; [apply T; reflexivity|]. split; [exact V|reflexivity].
  - destruct (calories_two_decimals (H := Examples.runtime)
                [("name", VStr "Butter");
                 ("calories_per_serving", VFloat (FFinite false 1 (-3)))]
                "basic_foods.txt" "" {[ "basic_foods.txt" := Reg "" ]}
                "" "0.12")
      as (E & V & _); [reflexivity..|].
    split; [etrans; [exact E|vm_compute; reflexivity]|].
    split; [exact V|reflexivity].
Defined.

(** The claim as it stands fails on a float that is not a number, which
    [json.loads] returns for [Infinity], [NaN] or a literal such as [1e999]:
    the line is written and its third field is [inf]. *)
Lemma calories_infinite_not_two_decimals :
  field [("name", VStr "Feast"); ("calories_per_serving", VFloat (FInf false))]
    "calories_per_serving" (VInt 0) = VFloat (FInf false)
  /\ process_food_item (H := Examples.runtime) Examples.huge_calories "basic_foods.txt"
       {[ "basic_foods.txt" := Reg "" ]}
     = (Ret tt, {[ "basic_foods.txt" := Reg ("Feast||inf" +:+ newline) ]})
  /\ split "|" "Feast||inf" = ["Feast"; ""; "inf"]
  /\ two_decimals "inf" = false.
Proof. repeat split; vm_compute; reflexivity. Qed.

(** C6.  When neither the identifier nor any keyword of a record holds [|]
    or [,], splitting its line, without the newline, on [|] gives three
    fields, the first of which is the identifier; splitting the second on
    [,] gives back the keyword list when that list is not empty.  An empty
    keyword list comes back as the list of one empty string. *)
Theorem basic_line_round_trip `{PyLib}
    (d : list (string * value)) (id : string) (ks : list string) (cal : string) :
  field d "name" (field d "id" (VStr "Unknown")) = VStr id ->
  field d "keywords" (VList []) = VList (List.map VStr ks) ->
  format_2f (field d "calories_per_serving" (VInt 0)) = Ret cal ->
  contains "|" id = false -> contains "," id = false ->
  Forall (fun k => contains "|" k = false /\ contains "," k = false) ks ->
  let line := id +:+ "|" +:+ join "," ks +:+ "|" +:+ cal in
  basic_line (VDict d) = Ret (line +:+ newline)
  /\ split "|" line = [id; join "," ks; cal]
  /\ (ks <> [] -> split "," (join "," ks) = ks)
  /\ (ks = [] -> split "," (join "," ks) = [""]).
Proof.
  intros Hid Hks Hcal Hp Hc Hall line. subst line.
  assert (Forall (fun k => contains "|" k = false) ks) as Hbar
    by (eapply Forall_impl; [exact Hall|by intros k [? _]]).
  assert (Forall (fun k => contains "," k = false) ks) as Hcomma
    by (eapply Forall_impl; [exact Hall|by intros k [_ ?]]).
  split; [|split; [|split]].
  - unfold basic_line. simpl. unfold field in *. rewrite Hid, Hks. simpl.
    rewrite str_join_strs. simpl. rewrite Hcal. simpl.
    by rewrite !append_assoc.
  - change (id +:+ "|" +:+ join "," ks +:+ "|" +:+ cal)
      with (id +:+ String "|" (join "," ks +:+ String "|" cal)).
    rewrite split_append by done.
    rewrite split_append by (by apply contains_join).
    rewrite split_no_sep; [done|].
    apply (format_2f_no_separator _ _ _ (or_introl eq_refl) Hcal).
  - intros Hne. by apply split_join.
  - by intros ->.
Qed.

Lemma basic_line_round_trip_white_bread :
  basic_line (H := Examples.runtime) Examples.white_bread
  = Ret ("White Bread Slice|bread,sandwich bread,loaf|70.00" +:+ newline)
  /\ split "|" "White Bread Slice|bread,sandwich bread,loaf|70.00"
     = ["White Bread Slice"; "bread,sandwich bread,loaf"; "70.00"]
  /\ split "," "bread,sandwich bread,loaf" = ["bread"; "sandwich bread"; "loaf"].
Proof.
  destruct (basic_line_round_trip (H := Examples.runtime)
              [("id", VStr "food001"); ("name", VStr "White Bread Slice");
               ("keywords", VList [VStr "bread"; VStr "sandwich bread"; VStr "loaf"]);
               ("calories_per_serving", VInt 70)]
              "White Bread Slice" ["bread"; "sandwich bread"; "loaf"] "70.00")
    as (E & S1 & S2 & _);
    [reflexivity | reflexivity | reflexivity | reflexivity | reflexivity
    | repeat constructor |].
  split; [exact E|]. split; [exact S1|]. apply S2. discriminate.
Defined.

(** The claim as it stands fails on an empty keyword list: the second
    field is empty and splits into one empty string, not into no keyword. *)
Lemma round_trip_loses_empty_keywords :
  field [("name", VStr "Rice"); ("keywords", VList []);
         ("calories_per_serving", VInt 130)] "keywords" (VList [])
  = VList (List.map VStr [])
  /\ basic_line (H := Examples.runtime) Examples.plain_rice
     = Ret ("Rice||130.00" +:+ newline)
  /\ split "|" "Rice||130.00" = ["Rice"; ""; "130.00"]
  /\ split "," "" = [""]
  /\ split "," "" <> [].
Proof. repeat split; try (vm_compute; reflexivity). discriminate. Qed.

(* ===================================================================== *)
(** * The run at the end of add_composite_food.py                         *)
(* ===================================================================== *)

(** Line 168 calls [add_composite_food_from_json(sample_data)]: on a fresh
    directory all ten records are written to [composite_foods.txt]. *)
Example sample_data_run :
  let run := add_composite_food_from_json (H := Examples.runtime)
               Examples.sample_data "composite_foods.txt" ∅ in
  fst run = Ret true
  /\ content (snd run) "composite_foods.txt"
     = text_of (List.map (fun line => line +:+ newline)
         ["Peanut Butter Sandwich|peanut butter sandwich,Peanut Butter Sandwich|White Bread Slice:2;Peanut Butter:1";
          "PB&J Sandwich|pb&j sandwich,PB&J Sandwich|White Bread Slice:2;Peanut Butter:1;Jam:1";
          "Paneer Wrap|paneer wrap,Paneer Wrap|Roti:1;Paneer:1;Onion:0.5;Tomato:0.5";
          "Dal Chawal|dal chawal,Dal Chawal|Dal:1;Cooked Rice:1";
          "Naan Paneer|naan paneer,Naan Paneer|Naan:1;Paneer:1;Onion:0.5";
          "Veg Sandwich|veg sandwich,Veg Sandwich|Whole Wheat Bread Slice:2;Butter:0.5;Tomato:0.5;Cucumber:0.5;Onion:0.5";
          "Egg Salad|egg salad,Egg Salad|Boiled Egg:1;Cucumber:0.5;Onion:0.5;Mayonnaise:1";
          "Chana Roti|chana roti,Chana Roti|Roti:1;Cooked Chickpeas:1";
          "Ghee Roti|ghee roti,Ghee Roti|Roti:1;Ghee:1";
          "Paneer Rice Bowl|paneer rice bowl,Paneer Rice Bowl|Cooked Rice:1;Paneer:1;Tomato:0.5;Onion:0.5"]).
Proof. split; vm_compute; reflexivity. Qed.

(* ===================================================================== *)
(** * Further properties of add_composite_food.py                         *)
(* ===================================================================== *)

Section MoreCompositeFacts.
Context `{PyLib}.

Lemma single_plan_effective (x v : value) :
  effective x = Some v -> is_str v = false -> single_plan x = single_plan v.
Proof.
  intros Hx Hv. unfold single_plan. fold (effective x). fold (effective v).
  rewrite Hx. by destruct v.
Qed.

Lemma single_plan_not_dict (x v : value) :
  effective x = Some v -> is_dict v = false -> single_plan x = Raise AttributeError.
Proof.
  intros Hx Hv. unfold single_plan. fold (effective x). rewrite Hx. by destruct v.
Qed.

(** Every line that is planned ends with a newline. *)
Lemma single_plan_newline (x : value) (entry : string) :
  single_plan x = Ret (Some entry) -> exists body, entry = body +:+ newline.
Proof.
  unfold single_plan. destruct (match x with VStr s => json_loads s | _ => Some x end)
    as [fd|]; [|done].
  destruct (get fd "id" (VStr "")) as [food_id|]; simpl; [|done].
  destruct (get fd "name" (VStr "")) as [food_name|]; simpl; [|done].
  destruct (get fd "components" (VList [])) as [components|]; simpl; [|done].
  destruct (negb (truthy food_name) || negb (truthy components)); [done|].
  destruct (lower food_name) as [lowered|]; simpl; [|done].
  destruct (iter components) as [items|]; simpl; [|done].
  destruct (format_components items []) as [parts|]; simpl; [|done].
  intros [= <-]. eexists. by rewrite <- !append_assoc.
Qed.

(** A component that is not a dict stops the loop over the components. *)
Lemma format_components_not_dict (cs : list value) (acc : list string) :
  existsb (fun c => negb (is_dict c)) cs = true ->
  format_components cs acc = Raise AttributeError.
Proof.
  revert acc. induction cs as [|c cs IH]; intros acc Hc; [done|].
  simpl in Hc. destruct c; try done. simpl in *. by apply IH.
Qed.

Lemma add_each_app (path : string) (before rest : list value) (n : nat) (fs : FS) :
  add_each (before ++ rest) path n fs
  = match add_each before path n fs with
    | (Ret k, fs') => add_each rest path k fs'
    | (Raise e, fs') => (Raise e, fs')
    end.
Proof.
  revert n fs. induction before as [|x before IH]; intros n fs; [done|].
  simpl. unfold mbind, M_bind.
  destruct (add_single_composite_food x path fs) as [[ok|e] fs1]; [|done].
  apply IH.
Qed.

(** On typed records the loop returns a count and never raises. *)
Lemma add_each_typed (path : string) (items : list value) (n : nat) (fs : FS) :
  forallb composite_record items = true ->
  add_each items path n fs
  = (Ret (n + length (List.filter (fun x => writable fs path && accepted x) items))%nat,
     foldl (fun s x => snd (add_single_composite_food x path s)) fs items).
Proof.
  intros Ht. destruct (add_each_plan path items n fs) as (fs' & E & _).
  rewrite (each_plan_typed _ items n Ht) in E. simpl in E.
  rewrite <- (add_each_state path items n fs Ht). by rewrite E.
Qed.

Lemma add_each_count (path : string) (items : list value) (n k : nat) (fs fs' : FS) :
  add_each items path n fs = (Ret k, fs') -> (k <= n + length items)%nat.
Proof.
  revert n fs. induction items as [|x items IH]; intros n fs E.
  - injection E as <- _. simpl. lia.
  - simpl in E. unfold mbind, M_bind in E.
    destruct (add_single_composite_food x path fs) as [[ok|e] fs1]; [|done].
    apply IH in E. destruct ok; simpl; lia.
Qed.

End MoreCompositeFacts.

(** X1.  When [add_single_composite_food] returns [True], it has appended
    exactly one line, ended by a newline, to [file_path]; when it raises,
    it has touched no file. *)
Theorem add_single_true_means_appended `{PyLib} (x : value) (path : string) (fs : FS) :
  let run := add_single_composite_food x path fs in
  (fst run = Ret true ->
   exists body,
     snd run = <[path := Reg (content fs path +:+ body +:+ newline)]> fs)
  /\ (forall e, fst run = Raise e -> snd run = fs).
Proof.
  intros run. subst run. rewrite add_single_plan.
  destruct (single_plan x) as [[entry|]|e] eqn:E.
  - destruct (single_plan_newline x entry E) as (body & ->).
    destruct (writable fs path); simpl; split; try done. intros _. by exists body.
  - simpl. by split.
  - simpl. by split.
Qed.

Lemma add_single_true_means_appended_examples :
  (exists body,
     snd (add_single_composite_food (H := Examples.runtime)
            Examples.ghee_roti "composite_foods.txt" ∅)
     = <["composite_foods.txt" :=
           Reg (content ∅ "composite_foods.txt" +:+ body +:+ newline)]> ∅)
  /\ snd (add_single_composite_food (H := Examples.runtime)
            (VInt 5) "composite_foods.txt" ∅) = ∅.
Proof.
  split.
  - apply (proj1 (add_single_true_means_appended (H := Examples.runtime)
                    Examples.ghee_roti "composite_foods.txt" ∅)).
    vm_compute. reflexivity.
  - apply (proj2 (add_single_true_means_appended (H := Examples.runtime)
                    (VInt 5) "composite_foods.txt" ∅) AttributeError).
    vm_compute. reflexivity.
Defined.

(** X2.  When the output file cannot be opened, a batch of typed records
    writes nothing and raises nothing: each record is reported as failed,
    so the call returns [False], or [True] for the empty batch. *)
Theorem from_json_unwritable `{PyLib} (items : list value) (path : string) (fs : FS) :
  forallb composite_record items = true ->
  writable fs path = false ->
  add_composite_food_from_json (VList items) path fs
  = (Ret (Nat.eqb 0 (length items)), fs).
Proof.
  intros Ht W. unfold add_composite_food_from_json, mbind, M_bind.
  rewrite (add_each_typed path items 0 fs Ht), W. simpl.
  assert (List.filter (fun _ : value => false) items = []) as ->
    by (clear; induction items; simpl; auto).
  assert (foldl (fun s x => snd (add_single_composite_food x path s)) fs items = fs) as ->.
  { clear -Ht W. induction items as [|x items IH]; [done|].
    apply andb_prop in Ht as [Hx Hr]. simpl.
    rewrite (add_single_typed x path fs Hx), W. simpl. by apply IH. }
  done.
Qed.

(** The default path of the helper, in a directory that does not exist. *)
Lemma from_json_unwritable_missing_directory :
  add_composite_food_from_json (H := Examples.runtime)
    (VList [Examples.ghee_roti; Examples.all_dropped]) "yada/composite_foods.txt"
    {[ "yada/composite_foods.txt" := Denied ]}
  = (Ret false, {[ "yada/composite_foods.txt" := Denied ]}).
Proof.
  apply (from_json_unwritable (H := Examples.runtime)
           [Examples.ghee_roti; Examples.all_dropped]); reflexivity.
Defined.

(** X3.  A single input that is not a dict, or a string whose JSON content
    is not a dict, makes the call raise [AttributeError] before any file
    is opened. *)
Theorem from_json_needs_a_dict `{PyLib} (x v : value) (path : string) (fs : FS) :
  is_list x = false ->
  effective x = Some v ->
  is_dict v = false ->
  add_composite_food_from_json x path fs = (Raise AttributeError, fs).
Proof.
  intros Hl Hx Hv.
  assert (add_composite_food_from_json x path fs = add_single_composite_food x path fs)
    as -> by (by destruct x).
  by rewrite add_single_plan, (single_plan_not_dict x v Hx Hv).
Qed.

Lemma from_json_needs_a_dict_null :
  add_composite_food_from_json (H := Examples.runtime) VNone "composite_foods.txt" ∅
  = (Raise AttributeError, ∅).
Proof.
  apply (from_json_needs_a_dict (H := Examples.runtime) VNone VNone); reflexivity.
Defined.

(** X4.  A record that passes the presence check with fields of another
    type raises before any file is opened: a truthy name that is not a
    string has no [lower], and a component that is not a dict has no
    [get]. *)
Theorem add_single_untyped_fields `{PyLib}
    (d : list (string * value)) (path : string) (fs : FS) :
  (forall nm, assoc "name" d = Some nm -> truthy nm = true -> is_str nm = false ->
     truthy (field d "components" (VList [])) = true ->
     add_single_composite_food (VDict d) path fs = (Raise AttributeError, fs))
  /\ (forall n cs, assoc "name" d = Some (VStr n) -> n <> "" ->
        assoc "components" d = Some (VList cs) ->
        existsb (fun c => negb (is_dict c)) cs = true ->
        add_single_composite_food (VDict d) path fs = (Raise AttributeError, fs)).
Proof.
  split.
  - intros nm Hn Ht Hs Hc. rewrite add_single_plan. unfold single_plan, field in *.
    simpl. rewrite Hn. simpl. rewrite Ht, Hc. simpl. by destruct nm.
  - intros n cs Hn Hne Hc Hex. rewrite add_single_plan. unfold single_plan. simpl.
    rewrite Hn, Hc. simpl. apply String.eqb_neq in Hne. rewrite Hne.
    destruct cs as [|c cs]; [done|]. simpl negb. cbv iota.
    change (iter (VList (c :: cs)) ≫= _) with
      (format_components (c :: cs) [] ≫= fun parts =>
         Ret (Some (n +:+ "|" +:+ join "," [str_lower n; n] +:+ "|"
                      +:+ join ";" parts +:+ newline))).
    by rewrite (format_components_not_dict _ _ Hex).
Qed.

Lemma add_single_untyped_fields_examples :
  add_single_composite_food (H := Examples.runtime)
    (VDict [("name", VInt 7); ("components", VList [Examples.component "Roti" (VInt 1)])])
    "composite_foods.txt" ∅ = (Raise AttributeError, ∅)
  /\ add_single_composite_food (H := Examples.runtime)
       (VDict [("name", VStr "Ghee Roti");
               ("components", VList [Examples.component "Roti" (VInt 1); VStr "Ghee"])])
       "composite_foods.txt" ∅ = (Raise AttributeError, ∅).
Proof.
  split.
  - apply (proj1 (add_single_untyped_fields (H := Examples.runtime) _ _ _) (VInt 7));
      reflexivity.
  - apply (proj2 (add_single_untyped_fields (H := Examples.runtime) _ _ _) "Ghee Roti"
             [Examples.component "Roti" (VInt 1); VStr "Ghee"]);
      [reflexivity | discriminate | reflexivity | reflexivity].
Defined.

(** X5.  An element whose processing raises ends the batch: the typed
    elements before it have been processed and their lines stay written,
    the elements after it are not attempted, and the exception leaves the
    call in place of a result. *)
Theorem from_json_stops_at_raising_element `{PyLib}
    (before after : list value) (bad v : value) (path : string) (fs : FS) :
  forallb composite_record before = true ->
  effective bad = Some v -> is_dict v = false ->
  add_composite_food_from_json (VList (before ++ bad :: after)) path fs
  = (Raise AttributeError,
     snd (add_composite_food_from_json (VList before) path fs)).
Proof.
  intros Ht Hb Hv. unfold add_composite_food_from_json, mbind, M_bind.
  rewrite add_each_app, (add_each_typed path before 0 fs Ht).
  cbn [add_each]. unfold mbind, M_bind.
  by rewrite add_single_plan, (single_plan_not_dict bad v Hb Hv).
Qed.

Lemma from_json_stops_at_number :
  let run := add_composite_food_from_json (H := Examples.runtime)
               (VList [Examples.ghee_roti; VInt 5; Examples.all_dropped])
               "composite_foods.txt" ∅ in
  fst run = Raise AttributeError
  /\ content (snd run) "composite_foods.txt"
     = "Ghee Roti|ghee roti,Ghee Roti|Roti:1;Ghee:1" +:+ newline.
Proof.
  intros run. subst run.
  rewrite (from_json_stops_at_raising_element (H := Examples.runtime)
             [Examples.ghee_roti] [Examples.all_dropped] (VInt 5) (VInt 5))
    by reflexivity.
  split; [reflexivity|vm_compute; reflexivity].
Defined.

(** X6.  A batch may hold JSON strings: each string element is parsed on
    its own, so the batch behaves as the batch of the parsed values, as
    long as no parsed value is itself a string. *)
Theorem from_json_parses_each_element `{PyLib}
    (items parsed : list value) (path : string) (fs : FS) :
  Forall2 (fun x v => effective x = Some v /\ is_str v = false) items parsed ->
  add_composite_food_from_json (VList items) path fs
  = add_composite_food_from_json (VList parsed) path fs.
Proof.
  intros Hp. unfold add_composite_food_from_json, mbind, M_bind.
  rewrite (Forall2_length _ _ _ Hp).
  assert (forall n s, add_each items path n s = add_each parsed path n s) as ->; [|done].
  induction Hp as [|x v items parsed [Hx Hv] Hp IH]; intros n s; [done|].
  simpl. unfold mbind, M_bind.
  rewrite !add_single_plan, (single_plan_effective x v Hx Hv).
  destruct (single_plan v) as [[entry|]|e]; [destruct (writable s path)|..];
    by rewrite ?IH.
Qed.

Lemma from_json_parses_each_element_mixed :
  add_composite_food_from_json (H := Examples.runtime)
    (VList [VStr (Examples.dumps Examples.ghee_roti); Examples.all_dropped])
    "composite_foods.txt" ∅
  = add_composite_food_from_json (H := Examples.runtime)
      (VList [Examples.ghee_roti; Examples.all_dropped]) "composite_foods.txt" ∅.
Proof.
  apply (from_json_parses_each_element (H := Examples.runtime)).
  repeat constructor; vm_compute; reflexivity.
Defined.

(** X7.  A string element that is not JSON is one failed element and no
    more: the rest of the batch is processed as if the element were not
    there, and the call cannot return [True]. *)
Theorem from_json_unparsable_element `{PyLib}
    (before after : list value) (x : value) (path : string) (fs : FS) :
  effective x = None ->
  let with_x := add_composite_food_from_json (VList (before ++ x :: after)) path fs in
  let without := add_composite_food_from_json (VList (before ++ after)) path fs in
  snd with_x = snd without
  /\ fst with_x <> Ret true
  /\ (forall e, fst with_x = Raise e <-> fst without = Raise e).
Proof.
  intros Hx with_x without. subst with_x without.
  unfold add_composite_food_from_json, mbind, M_bind.
  assert (forall n s, add_each (x :: after) path n s = add_each after path n s) as Hskip.
  { intros n s. cbn [add_each]. unfold mbind, M_bind. rewrite add_single_plan.
    unfold single_plan. fold (effective x). by rewrite Hx. }
  rewrite !add_each_app.
  destruct (add_each before path 0 fs) as [[k|e] fs1] eqn:Eb; [|by simpl].
  apply add_each_count in Eb.
  rewrite Hskip. destruct (add_each after path k fs1) as [[k'|e] fs2] eqn:Ea;
    [|by simpl].
  apply add_each_count in Ea. simpl. split; [done|]. split; [|done].
  intros [= Hk]. apply Nat.eqb_eq in Hk. rewrite length_app in Hk. simpl in Hk. lia.
Qed.

Lemma from_json_unparsable_element_example :
  let with_x := add_composite_food_from_json (H := Examples.runtime)
                  (VList ([Examples.ghee_roti] ++ VStr "{name: Ghee Roti" :: [Examples.all_dropped]))
                  "composite_foods.txt" ∅ in
  let without := add_composite_food_from_json (H := Examples.runtime)
                   (VList ([Examples.ghee_roti] ++ [Examples.all_dropped]))
                   "composite_foods.txt" ∅ in
  snd with_x = snd without
  /\ fst with_x <> Ret true
  /\ (forall e, fst with_x = Raise e <-> fst without = Raise e).
Proof.
  apply (from_json_unparsable_element (H := Examples.runtime)
           [Examples.ghee_roti] [Examples.all_dropped] (VStr "{name: Ghee Roti")).
  vm_compute. reflexivity.
Defined.

(** X8.  Whatever its input, [add_composite_food_from_json] changes no
    file but [file_path], and changes that one only by adding text at its
    end: nothing already there is removed, altered or reordered. *)
Theorem from_json_only_appends `{PyLib} (json_data : value) (path : string) (fs : FS) :
  exists text,
    extends fs path text (snd (add_composite_food_from_json json_data path fs)).
Proof.
  destruct (from_json_effect json_data path (writable fs path)) as (r & text & Heff).
  destruct (Heff fs eq_refl) as (fs' & E & X). exists text. by rewrite E.
Qed.

(** X9.  The line depends on the [name] and [components] of the record
    only: [id], which is read for the error message, and any other key
    change neither the result nor what is written. *)
Theorem add_single_ignores_other_keys `{PyLib}
    (d1 d2 : list (string * value)) (path : string) (fs : FS) :
  assoc "name" d1 = assoc "name" d2 ->
  assoc "components" d1 = assoc "components" d2 ->
  add_single_composite_food (VDict d1) path fs
  = add_single_composite_food (VDict d2) path fs.
Proof.
  intros Hn Hc. rewrite !add_single_plan. unfold single_plan. simpl.
  by rewrite Hn, Hc.
Qed.

Lemma add_single_ignores_id :
  add_single_composite_food (H := Examples.runtime)
    (Examples.composite "composite009" "Ghee Roti"
       [Examples.component "Roti" (VInt 1); Examples.component "Ghee" (VInt 1)])
    "composite_foods.txt" ∅
  = add_single_composite_food (H := Examples.runtime)
      Examples.ghee_roti "composite_foods.txt" ∅.
Proof.
  apply (add_single_ignores_other_keys (H := Examples.runtime)); reflexivity.
Defined.

(** X10.  The appended line can be read back.  When neither the name nor
    its lowercase form holds [|] or [,] and no component text holds [|] or
    [;], splitting the line on [|] gives the name, the search terms and the
    components; the search terms split on [,] into the lowercased name and
    the name; the components, when some are kept, split on [;] into the
    component texts. *)
Theorem composite_line_round_trip `{PyLib}
    (d : list (string * value)) (n : string) (cs : list value)
    (path : string) (fs : FS) :
  assoc "name" d = Some (VStr n) -> n <> "" ->
  assoc "components" d = Some (VList cs) -> cs <> [] ->
  forallb is_dict cs = true ->
  writable fs path = true ->
  contains "|" n = false -> contains "," n = false ->
  contains "|" (str_lower n) = false -> contains "," (str_lower n) = false ->
  let parts := List.map component_text (List.filter included cs) in
  Forall (fun p => contains "|" p = false /\ contains ";" p = false) parts ->
  let terms := str_lower n +:+ "," +:+ n in
  let line := n +:+ "|" +:+ terms +:+ "|" +:+ join ";" parts in
  add_single_composite_food (VDict d) path fs
  = (Ret true, <[path := Reg (content fs path +:+ line +:+ newline)]> fs)
  /\ split "|" line = [n; terms; join ";" parts]
  /\ split "," terms = [str_lower n; n]
  /\ (parts <> [] -> split ";" (join ";" parts) = parts).
Proof.
  intros Hn Hne Hc Hcne Hd W Hbar Hcomma Hlbar Hlcomma parts Hparts terms line.
  assert (Forall (fun p => contains "|" p = false) parts) as Hpb
    by (eapply Forall_impl; [exact Hparts|by intros p [? _]]).
  assert (Forall (fun p => contains ";" p = false) parts) as Hps
    by (eapply Forall_impl; [exact Hparts|by intros p [_ ?]]).
  split; [|split; [|split]].
  - rewrite add_single_plan, (single_plan_accepts d n cs), W by done.
    unfold composite_line. subst line terms parts. by rewrite !append_assoc.
  - subst line terms.
    change (n +:+ "|" +:+ (str_lower n +:+ "," +:+ n) +:+ "|" +:+ join ";" parts)
      with (n +:+ String "|" ((str_lower n +:+ "," +:+ n)
                                +:+ String "|" (join ";" parts))).
    rewrite split_append by done.
    rewrite split_append.
    2:{ rewrite contains_append, Hlbar. simpl. exact Hbar. }
    rewrite split_no_sep; [done|]. by apply contains_join.
  - subst terms.
    change (str_lower n +:+ "," +:+ n) with (str_lower n +:+ String "," n).
    rewrite split_append by done.
    by rewrite split_no_sep.
  - intros Hne'. by apply split_join.
Qed.

Lemma composite_line_round_trip_ghee_roti :
  split "|" "Ghee Roti|ghee roti,Ghee Roti|Roti:1;Ghee:1"
  = ["Ghee Roti"; "ghee roti,Ghee Roti"; "Roti:1;Ghee:1"]
  /\ split "," "ghee roti,Ghee Roti" = ["ghee roti"; "Ghee Roti"]
  /\ split ";" "Roti:1;Ghee:1" = ["Roti:1"; "Ghee:1"].
Proof.
  destruct (composite_line_round_trip (H := Examples.runtime)
              [("name", VStr "Ghee Roti");
               ("components", VList [Examples.component "Roti" (VInt 1);
                                     Examples.component "Ghee" (VInt 1)])]
              "Ghee Roti"
              [Examples.component "Roti" (VInt 1); Examples.component "Ghee" (VInt 1)]
              "composite_foods.txt" ∅) as (_ & S1 & S2 & S3);
    [reflexivity | discriminate | reflexivity | discriminate | reflexivity
    | reflexivity | reflexivity | reflexivity | reflexivity | reflexivity
    | repeat constructor |].
  split; [exact S1|]. split; [exact S2|]. apply S3. discriminate.
Defined.

Lemma batch_unwritable `{PyLib} (items : list value) (path : string) (n : nat) (fs : FS) :
  forallb composite_record items = true ->
  writable fs path = false ->
  add_each items path n fs = (Ret n, fs).
Proof.
  intros Ht W. revert n. induction items as [|x items IH]; intros n; [done|].
  apply andb_prop in Ht as [Hx Hr]. cbn [add_each]. unfold mbind, M_bind.
  rewrite (add_single_typed x path fs Hx), W. simpl. by apply IH.
Qed.

(** X11.  Loading the module runs the converter on [sample_data]: when
    [composite_foods.txt] can be opened, the lines of all ten records are
    appended to whatever it held and the call returns [True]; when it
    cannot, nothing is written, nothing is raised and the call returns
    [False]. *)
Theorem module_run_appends_sample_data `{PyLib} (fs : FS) :
  (writable fs "composite_foods.txt" = true ->
   exists fs',
     module_run fs = (Ret true, fs')
     /\ extends fs "composite_foods.txt" (text_of (List.map entry_of sample_records)) fs'
     /\ length (List.map entry_of sample_records) = 10%nat)
  /\ (writable fs "composite_foods.txt" = false -> module_run fs = (Ret false, fs)).
Proof.
  assert (forallb composite_record sample_records = true) as Ht by reflexivity.
  split; intros W.
  - destruct (add_each_plan "composite_foods.txt" sample_records 0 fs) as (fs' & E & X).
    rewrite W, (each_plan_typed _ sample_records 0 Ht) in E, X.
    change (List.filter (fun x => true && accepted x) sample_records)
      with sample_records in E, X.
    simpl fst in E. simpl snd in X. exists fs'. split; [|split; [exact X|reflexivity]].
    unfold module_run, add_composite_food_from_json.
    change Examples.sample_data with (VList sample_records). cbv iota.
    unfold mbind, M_bind. by rewrite E.
  - unfold module_run, add_composite_food_from_json.
    change Examples.sample_data with (VList sample_records). cbv iota.
    unfold mbind, M_bind. by rewrite (batch_unwritable sample_records _ 0 fs Ht W).
Qed.

Lemma module_run_fresh_directory :
  (exists fs',
     module_run (H := Examples.runtime) ∅ = (Ret true, fs')
     /\ content fs' "composite_foods.txt"
        = text_of (List.map (entry_of (H := Examples.runtime)) sample_records))
  /\ module_run (H := Examples.runtime) {[ "composite_foods.txt" := Denied ]}
     = (Ret false, {[ "composite_foods.txt" := Denied ]}).
Proof.
  split.
  - destruct (proj1 (module_run_appends_sample_data (H := Examples.runtime) ∅))
      as (fs' & E & (C & _) & _); [reflexivity|].
    exists fs'. split; [exact E|]. rewrite C. reflexivity.
  - apply (proj2 (module_run_appends_sample_data (H := Examples.runtime) _)).
    reflexivity.
Defined.

(* ===================================================================== *)
(** * Further properties of convert_foods.py                              *)
(* ===================================================================== *)

Section MoreBasicFacts.
Context `{PyLib}.

Lemma lines_plan_all (foods : list value) (lines : list string) :
  Forall2 (fun food line => basic_line food = Ret line) foods lines ->
  lines_plan foods = (Ret tt, text_of lines).
Proof.
  intros Hf. induction Hf as [|food line foods lines Hl Hf IH]; [done|].
  simpl. by rewrite Hl, IH.
Qed.

Lemma basic_line_newline (food : value) (line : string) :
  basic_line food = Ret line -> exists body, line = body +:+ newline.
Proof.
  unfold basic_line.
  destruct (get food "id" (VStr "Unknown")) as [fallback|]; simpl; [|done].
  destruct (get food "name" fallback) as [identifier|]; simpl; [|done].
  destruct (get food "keywords" (VList [])) as [kl|]; simpl; [|done].
  destruct (str_join "," kl) as [keywords|]; simpl; [|done].
  destruct (get food "calories_per_serving" (VInt 0)) as [calories|]; simpl; [|done].
  destruct (format_2f calories) as [formatted|]; simpl; [|done].
  intros [= <-]. eexists. by rewrite <- !append_assoc.
Qed.

Lemma strings_of_chars (s : string) : strings_of (chars s) = Ret (singles s).
Proof.
  unfold singles. induction s as [|c s IH]; [done|]. simpl. by rewrite IH.
Qed.

End MoreBasicFacts.

(** [float(z)] fails from [2^1024] on. *)
Lemma float_of_int_overflow (z : Z) :
  2 ^ 1024 <= Z.abs z -> float_of_int z = Raise OverflowError.
Proof.
  intros Hz. unfold float_of_int.
  set (a := Z.abs z) in *.
  assert (0 < a) as Ha by lia.
  pose proof (Z.log2_spec a Ha) as [Hlo Hhi].
  assert (1024 <= Z.log2 a) as Hlog by (apply Z.log2_le_pow2; lia).
  destruct (Z.log2 a + 1 <=? 53) eqn:Hb; [apply Z.leb_le in Hb; lia|].
  set (sh := Z.log2 a + 1 - 53) in *.
  assert (0 <= sh) as Hsh by (unfold sh; lia).
  assert (Z.shiftl 1 1024 = 2 ^ 1024) as -> by (by rewrite Z.shiftl_1_l).
  assert (2 ^ 52 <= Z.shiftr a sh) as Hq.
  { rewrite Z.shiftr_div_pow2 by done.
    apply Z.div_le_lower_bound; [by apply Z.pow_pos_nonneg|].
    rewrite <- Z.pow_add_r by lia.
    replace (sh + 52) with (Z.log2 a) by (unfold sh; lia). done. }
  match goal with |- context [if ?c then Z.shiftr a sh + 1 else Z.shiftr a sh] =>
    set (q' := if c then Z.shiftr a sh + 1 else Z.shiftr a sh) end.
  assert (Z.shiftr a sh <= q') as Hq' by (unfold q'; destruct (_ || _); lia).
  assert (2 ^ 1024 <= Z.shiftl q' sh) as Hov.
  { rewrite Z.shiftl_mul_pow2 by done.
    assert (2 ^ 1024 <= 2 ^ 52 * 2 ^ sh).
    { rewrite <- Z.pow_add_r by lia. apply Z.pow_le_mono_r; lia. }
    assert (0 < 2 ^ sh) by (by apply Z.pow_pos_nonneg). nia. }
  apply Z.leb_le in Hov. by rewrite Hov.
Qed.

(** X12.  [convert_json_to_basic_foods] never raises, whatever the files
    hold, and changes no file but [output_file], which it only extends at
    its end. *)
Theorem convert_only_appends `{PyLib} (json_file out : string) (fs : FS) :
  fst (convert_json_to_basic_foods json_file out fs) = Ret tt
  /\ exists text,
       extends fs out text (snd (convert_json_to_basic_foods json_file out fs)).
Proof.
  split; [by rewrite convert_plan|].
  eexists. apply convert_extends.
Qed.

(** X13.  When the input file is missing, cannot be read or does not hold
    JSON, the call returns with every file as it was: the output file is
    not even created.  The same holds when the output cannot be opened. *)
Theorem convert_without_input `{PyLib} (json_file out : string) (fs : FS) :
  (input_of fs json_file = None ->
   convert_json_to_basic_foods json_file out fs = (Ret tt, fs))
  /\ (writable fs out = false ->
      convert_json_to_basic_foods json_file out fs = (Ret tt, fs)).
Proof.
  split; intros Hx; rewrite convert_plan, ?Hx; [done|].
  by destruct (input_of fs json_file).
Qed.

Lemma convert_without_input_examples :
  convert_json_to_basic_foods (H := Examples.runtime)
    "food_data.json" "basic_foods.txt" ∅ = (Ret tt, ∅)
  /\ convert_json_to_basic_foods (H := Examples.runtime)
       "food_data.json" "basic_foods.txt"
       {[ "food_data.json" := Reg "{name: Rice" ]}
     = (Ret tt, {[ "food_data.json" := Reg "{name: Rice" ]})
  /\ convert_json_to_basic_foods (H := Examples.runtime)
       "food_data.json" "out/basic_foods.txt"
       (<["out/basic_foods.txt" := Denied]> (Examples.with_input Examples.good_batch))
     = (Ret tt,
        <["out/basic_foods.txt" := Denied]> (Examples.with_input Examples.good_batch)).
Proof.
  split; [|split].
  - apply (proj1 (convert_without_input (H := Examples.runtime) _ _ _)). reflexivity.
  - apply (proj1 (convert_without_input (H := Examples.runtime) _ _ _)).
    vm_compute. reflexivity.
  - apply (proj2 (convert_without_input (H := Examples.runtime) _ _ _)).
    vm_compute. reflexivity.
Defined.

(** X14.  Once the input is read, the output file is opened before any
    record is processed: on an empty array, the call creates the output
    file, empty, when it did not exist, and leaves it as it was when it
    did. *)
Theorem convert_empty_array `{PyLib} (json_file out : string) (fs : FS) :
  input_of fs json_file = Some (VList []) ->
  (fs !! out = None ->
   convert_json_to_basic_foods json_file out fs = (Ret tt, <[out := Reg ""]> fs))
  /\ (forall c, fs !! out = Some (Reg c) ->
      convert_json_to_basic_foods json_file out fs = (Ret tt, fs)).
Proof.
  intros Hin. split.
  - intros Hout. rewrite convert_plan, Hin. unfold writable, content.
    by rewrite Hout.
  - intros c Hout. rewrite convert_plan, Hin. unfold writable, content.
    rewrite Hout. simpl. by rewrite append_empty_r, insert_id.
Qed.

Lemma convert_empty_array_examples :
  convert_json_to_basic_foods (H := runtime_with_empty_array)
    "food_data.json" "basic_foods.txt" {[ "food_data.json" := Reg "[]" ]}
  = (Ret tt, <["basic_foods.txt" := Reg ""]> {[ "food_data.json" := Reg "[]" ]})
  /\ convert_json_to_basic_foods (H := runtime_with_empty_array)
       "food_data.json" "basic_foods.txt"
       (<["basic_foods.txt" := Reg "Rice||130.00"]> {[ "food_data.json" := Reg "[]" ]})
     = (Ret tt,
        <["basic_foods.txt" := Reg "Rice||130.00"]> {[ "food_data.json" := Reg "[]" ]}).
Proof.
  split.
  - destruct (convert_empty_array (H := runtime_with_empty_array)
                "food_data.json" "basic_foods.txt" {[ "food_data.json" := Reg "[]" ]})
      as [Hnew _]; [vm_compute; reflexivity|].
    apply Hnew. reflexivity.
  - destruct (convert_empty_array (H := runtime_with_empty_array)
                "food_data.json" "basic_foods.txt"
                (<["basic_foods.txt" := Reg "Rice||130.00"]>
                   {[ "food_data.json" := Reg "[]" ]}))
      as [_ Hold]; [vm_compute; reflexivity|].
    apply (Hold "Rice||130.00"). reflexivity.
Defined.

(** X15.  When every record of the document gives a line, the lines of
    all of them are appended to the output, in the order of the document;
    a document that is a single object counts as its one record. *)
Theorem convert_writes_every_record `{PyLib}
    (json_file out : string) (fs : FS) (food_data : value) (lines : list string) :
  input_of fs json_file = Some food_data ->
  writable fs out = true ->
  Forall2 (fun food line => basic_line food = Ret line) (records_of food_data) lines ->
  convert_json_to_basic_foods json_file out fs
  = (Ret tt, <[out := Reg (content fs out +:+ text_of lines)]> fs).
Proof.
  intros Hin W Hl. rewrite convert_plan, Hin, W.
  by rewrite (lines_plan_all _ _ Hl).
Qed.

Lemma convert_writes_good_batch :
  convert_json_to_basic_foods (H := Examples.runtime)
    "food_data.json" "basic_foods.txt" (Examples.with_input Examples.good_batch)
  = (Ret tt,
     <["basic_foods.txt" :=
         Reg (("White Bread Slice|bread,sandwich bread,loaf|70.00" +:+ newline)
                +:+ ("Rice||130.00" +:+ newline))]>
       (Examples.with_input Examples.good_batch)).
Proof.
  etrans.
  - apply (convert_writes_every_record (H := Examples.runtime)
             "food_data.json" "basic_foods.txt" _ Examples.good_batch
             ["White Bread Slice|bread,sandwich bread,loaf|70.00" +:+ newline;
              "Rice||130.00" +:+ newline]);
      [vm_compute; reflexivity | reflexivity | repeat constructor].
  - vm_compute. reflexivity.
Defined.

(** X16.  On an open file [process_food_item] writes one whole line, ended
    by a newline, or raises having written nothing: a record never leaves
    part of a line behind. *)
Theorem process_food_item_line_or_nothing `{PyLib}
    (food : value) (out c : string) (fs : FS) :
  fs !! out = Some (Reg c) ->
  (exists body,
     process_food_item food out fs
     = (Ret tt, <[out := Reg (c +:+ body +:+ newline)]> fs))
  \/ (exists e, process_food_item food out fs = (Raise e, fs)).
Proof.
  intros Hout. rewrite process_food_item_line.
  destruct (basic_line food) as [line|e] eqn:E; [|right; by exists e].
  destruct (basic_line_newline food line E) as (body & ->).
  left. exists body. unfold write. by rewrite Hout.
Qed.

Lemma process_food_item_line_or_nothing_rice :
  (exists body,
     process_food_item (H := Examples.runtime) Examples.plain_rice "basic_foods.txt"
       {[ "basic_foods.txt" := Reg "White Bread Slice||70.00" ]}
     = (Ret tt,
        <["basic_foods.txt" := Reg ("White Bread Slice||70.00" +:+ body +:+ newline)]>
          {[ "basic_foods.txt" := Reg "White Bread Slice||70.00" ]}))
  \/ (exists e,
        process_food_item (H := Examples.runtime) Examples.plain_rice "basic_foods.txt"
          {[ "basic_foods.txt" := Reg "White Bread Slice||70.00" ]}
        = (Raise e, {[ "basic_foods.txt" := Reg "White Bread Slice||70.00" ]})).
Proof.
  apply (process_food_item_line_or_nothing (H := Examples.runtime)).
  vm_compute. reflexivity.
Defined.

(** X17.  The line of a record depends on four of its keys only, and [id]
    is read only when the record has no [name] key: a name that is
    present, even empty, is the identifier. *)
Theorem process_food_item_reads_four_keys `{PyLib}
    (d1 d2 : list (string * value)) (out : string) (fs : FS) :
  assoc "name" d1 = assoc "name" d2 ->
  assoc "keywords" d1 = assoc "keywords" d2 ->
  assoc "calories_per_serving" d1 = assoc "calories_per_serving" d2 ->
  assoc "id" d1 = assoc "id" d2 \/ assoc "name" d1 <> None ->
  process_food_item (VDict d1) out fs = process_food_item (VDict d2) out fs.
Proof.
  intros Hn Hk Hc Hid. rewrite !process_food_item_line. unfold basic_line. simpl.
  rewrite Hk, Hc, <- Hn.
  destruct Hid as [-> | Hsome]; [done|].
  by destruct (assoc "name" d1).
Qed.

Lemma process_food_item_empty_name :
  process_food_item (H := Examples.runtime)
    (VDict [("id", VStr "food009"); ("name", VStr ""); ("calories_per_serving", VInt 5)])
    "basic_foods.txt" {[ "basic_foods.txt" := Reg "" ]}
  = process_food_item (H := Examples.runtime)
      (VDict [("name", VStr ""); ("calories_per_serving", VInt 5)])
      "basic_foods.txt" {[ "basic_foods.txt" := Reg "" ]}.
Proof.
  apply (process_food_item_reads_four_keys (H := Examples.runtime));
    [reflexivity | reflexivity | reflexivity | right; discriminate].
Defined.

(** X18.  A [keywords] field that is a string, not a list, is taken
    character by character: the second field of the line holds the
    characters of the string separated by commas. *)
Theorem keywords_string_by_character `{PyLib}
    (d : list (string * value)) (s cal : string) :
  assoc "keywords" d = Some (VStr s) ->
  format_2f (field d "calories_per_serving" (VInt 0)) = Ret cal ->
  basic_line (VDict d)
  = Ret (str (field d "name" (field d "id" (VStr "Unknown"))) +:+ "|"
           +:+ join "," (singles s) +:+ "|" +:+ cal +:+ newline).
Proof.
  intros Hk Hc. unfold basic_line, field in *. simpl. rewrite Hk. simpl.
  unfold str_join. simpl. rewrite strings_of_chars. simpl. by rewrite Hc.
Qed.

Lemma keywords_string_by_character_bread :
  basic_line (H := Examples.runtime)
    (VDict [("name", VStr "Toast"); ("keywords", VStr "bread")])
  = Ret ("Toast|b,r,e,a,d|0.00" +:+ newline).
Proof.
  etrans.
  - apply (keywords_string_by_character (H := Examples.runtime) _ "bread" "0.00");
      reflexivity.
  - vm_compute. reflexivity.
Defined.

(** X19.  Calories that are not a number stop the record before anything
    is written: a string raises [ValueError], [None], a list or a dict
    raise [TypeError], and an integer from [2^1024] on raises
    [OverflowError]. *)
Theorem calories_not_formattable `{PyLib}
    (d : list (string * value)) (kw out : string) (fs : FS) :
  str_join "," (field d "keywords" (VList [])) = Ret kw ->
  let calories := field d "calories_per_serving" (VInt 0) in
  (numeric calories = false ->
   process_food_item (VDict d) out fs
   = (Raise (if is_str calories then ValueError else TypeError), fs))
  /\ (forall z, calories = VInt z -> 2 ^ 1024 <= Z.abs z ->
      process_food_item (VDict d) out fs = (Raise OverflowError, fs)).
Proof.
  intros Hkw calories. subst calories. unfold field in *. split.
  - intros Hnum. rewrite process_food_item_line. unfold basic_line. simpl.
    rewrite Hkw. simpl.
    by destruct (default (VInt 0) (assoc "calories_per_serving" d)).
  - intros z Hz Hbig. rewrite process_food_item_line. unfold basic_line. simpl.
    rewrite Hkw. simpl. rewrite Hz. simpl.
    by rewrite (float_of_int_overflow z Hbig).
Qed.

Lemma calories_not_formattable_examples :
  process_food_item (H := Examples.runtime) Examples.bad_calories "basic_foods.txt" ∅
  = (Raise ValueError, ∅)
  /\ process_food_item (H := Examples.runtime)
       (VDict [("name", VStr "Void"); ("calories_per_serving", VNone)])
       "basic_foods.txt" ∅
     = (Raise TypeError, ∅)
  /\ process_food_item (H := Examples.runtime)
       (VDict [("name", VStr "Sun"); ("calories_per_serving", VInt (2 ^ 1024))])
       "basic_foods.txt" ∅
     = (Raise OverflowError, ∅).
Proof.
  split; [|split].
  - apply (proj1 (calories_not_formattable (H := Examples.runtime)
                    [("name", VStr "Mystery"); ("calories_per_serving", VStr "many")]
                    "" "basic_foods.txt" ∅ eq_refl)).
    reflexivity.
  - apply (proj1 (calories_not_formattable (H := Examples.runtime)
                    [("name", VStr "Void"); ("calories_per_serving", VNone)]
                    "" "basic_foods.txt" ∅ eq_refl)).
    reflexivity.
  - apply (proj2 (calories_not_formattable (H := Examples.runtime)
                    [("name", VStr "Sun"); ("calories_per_serving", VInt (2 ^ 1024))]
                    "" "basic_foods.txt" ∅ eq_refl) (2 ^ 1024)).
    + reflexivity.
    + vm_compute. discriminate.
Defined.

(* ===================================================================== *)
(** * What the result of a batch tells                                    *)
(* ===================================================================== *)

(** The count that the loop returns is the number of lines it wrote. *)
Lemma each_plan_entries `{PyLib} (w : bool) (items : list value) (n k : nat)
    (text : string) :
  each_plan w items n = (Ret k, text) ->
  exists entries,
    text = text_of entries
    /\ k = (n + length entries)%nat
    /\ (length entries <= length items)%nat
    /\ Forall (fun entry => exists body, entry = body +:+ newline) entries.
Proof.
  revert n k text. induction items as [|x items IH]; intros n k text E.
  - injection E as <- <-. exists []. simpl. repeat split; [lia|lia|constructor].
  - cbn [each_plan] in E. destruct (single_plan x) as [[entry|]|e] eqn:Ex; [|..|done].
    + destruct w.
      * destruct (each_plan true items (S n)) as [r t] eqn:Er.
        injection E as -> <-. destruct (IH _ _ _ Er) as (entries & -> & -> & Hl & Hf).
        exists (entry :: entries). simpl. repeat split; [lia|lia|].
        constructor; [by apply (single_plan_newline x)|done].
      * destruct (IH _ _ _ E) as (entries & -> & -> & Hl & Hf).
        exists entries. simpl. repeat split; [lia|done].
    + destruct (IH _ _ _ E) as (entries & -> & -> & Hl & Hf).
      exists entries. simpl. repeat split; [lia|done].
Qed.

(** X20.  On any list, typed or not, the answer [True] means that every
    element was written: as many lines as the list has elements, each
    ended by a newline, have been appended to [file_path]. *)
Theorem from_json_true_means_all_written `{PyLib}
    (items : list value) (path : string) (fs fs' : FS) :
  add_composite_food_from_json (VList items) path fs = (Ret true, fs') ->
  exists entries,
    length entries = length items
    /\ extends fs path (text_of entries) fs'
    /\ Forall (fun entry => exists body, entry = body +:+ newline) entries.
Proof.
  unfold add_composite_food_from_json, mbind, M_bind.
  destruct (add_each_plan path items 0 fs) as (fs1 & E & X). rewrite E.
  destruct (each_plan (writable fs path) items 0) as [[k|e] text] eqn:Ep; [|done].
  simpl in *. intros [= Hk <-]. apply Nat.eqb_eq in Hk.
  destruct (each_plan_entries _ _ _ _ _ Ep) as (entries & -> & Hlen & _ & Hf).
  exists entries. split; [lia|]. by split.
Qed.

Lemma from_json_true_means_all_written_example :
  exists entries,
    length entries = 2%nat
    /\ content (snd (add_composite_food_from_json (H := Examples.runtime)
                       (VList [Examples.ghee_roti; Examples.all_dropped])
                       "composite_foods.txt" ∅)) "composite_foods.txt"
       = text_of entries.
Proof.
  destruct (add_composite_food_from_json (H := Examples.runtime)
              (VList [Examples.ghee_roti; Examples.all_dropped])
              "composite_foods.txt" ∅) as [r fs'] eqn:E.
  destruct (from_json_true_means_all_written (H := Examples.runtime)
              [Examples.ghee_roti; Examples.all_dropped] "composite_foods.txt" ∅ fs')
    as (entries & Hlen & (C & _) & _).
  - rewrite E. f_equal. apply (f_equal fst) in E. vm_compute in E. by rewrite <- E.
  - exists entries. split; [exact Hlen|]. simpl. rewrite C. reflexivity.
Defined.
